(** * Vlab-Tools: forward volatility and event volatility

    A shallow embedding of the two computational classes of the repository,

    - [ImpliedForwardVolCalculator] ("Forward Volatility Calculator.py"):
      [_calculate_days_between], [calculate_forward_variance],
      [calculate_forward_vol], [create_forward_vol_matrix];
    - [EventVolatilityExtractor] ("Event_Volatility_Extractor.py"):
      [extract_volatilities];

    together with the part of Python's [datetime] they call.

    Numbers.  Python floats are IEEE 754 binary64 values and are modelled by
    Rocq's primitive floats, so every definition runs.  The arithmetic of
    [calculate_forward_variance] is duck typed ([/], [*], [-]); it is written
    once over an interface [PyNumber] and instantiated at [float] and at [Q]
    (what the same code computes on [fractions.Fraction] arguments, that is in
    exact rational arithmetic).

    Effects.  Exceptions are values of type [exn]; [datetime.now()] reads a
    clock, which is threaded through every computation as a state. *)

From Stdlib Require Import ZArith QArith Qfield Qabs Floats String Ascii Bool Lia.
From stdpp Require Import base list.

#[local] Set Warnings "-inexact-float".
Local Open Scope Z_scope.

(** ** Exceptions *)

(** The exceptions the modelled code can raise, with Python's class names. *)
Inductive exn : Type :=
| ValueError (msg : string)
| IndexError (msg : string)
| ZeroDivisionError (msg : string).

(** The error kinds of the specification (section 7). *)
Inductive error_kind : Type :=
| ParseError
| ValidationError
| OrderingError
| DomainError.

(** The text of the only [raise] statement of the repository
    ([calculate_forward_variance]). *)
Definition order_msg : string := "Second expiry must be after first expiry".

(** How a Python exception of the model reads in the specification's
    taxonomy: the explicit [raise] reports a violated date ordering, every other
    [ValueError] comes from [datetime.strptime], and no statement of the code
    raises for a negative volatility or for a negative variance. *)
Definition kind_of (e : exn) : option error_kind :=
  match e with
  | ValueError msg =>
      if String.eqb msg order_msg then Some OrderingError else Some ParseError
  | IndexError _ => None
  | ZeroDivisionError _ => None
  end.

Module Datetime.

(** A naive [datetime.datetime] value. *)
Record datetime : Type := mk_datetime {
  year : Z;
  month : Z;
  day : Z;
  hour : Z;
  minute : Z;
  second : Z;
  microsecond : Z
}.

(** [datetime(y, m, d)]: midnight of a calendar day. *)
Definition midnight (y m d : Z) : datetime := mk_datetime y m d 0 0 0 0.

(** year -> 1 if leap year, else 0. *)
Definition _is_leap (y : Z) : bool :=
  (y mod 4 =? 0) && (negb (y mod 100 =? 0) || (y mod 400 =? 0)).

(** year -> number of days before January 1st of year. *)
Definition _days_before_year (y : Z) : Z :=
  let y := y - 1 in y * 365 + y / 4 - y / 100 + y / 400.

Definition _DAYS_IN_MONTH (m : Z) : Z :=
  match m with
  | 1 => 31 | 2 => 28 | 3 => 31 | 4 => 30 | 5 => 31 | 6 => 30
  | 7 => 31 | 8 => 31 | 9 => 30 | 10 => 31 | 11 => 30 | 12 => 31
  | _ => -1
  end.

Definition _DAYS_BEFORE_MONTH (m : Z) : Z :=
  match m with
  | 1 => 0 | 2 => 31 | 3 => 59 | 4 => 90 | 5 => 120 | 6 => 151
  | 7 => 181 | 8 => 212 | 9 => 243 | 10 => 273 | 11 => 304 | 12 => 334
  | _ => -1
  end.

(** year, month -> number of days in that month in that year. *)
Definition _days_in_month (y m : Z) : Z :=
  if (m =? 2) && _is_leap y then 29 else _DAYS_IN_MONTH m.

(** year, month -> number of days in year preceding first day of month. *)
Definition _days_before_month (y m : Z) : Z :=
  _DAYS_BEFORE_MONTH m + (if (2 <? m) && _is_leap y then 1 else 0).

(** year, month, day -> ordinal, considering 01-Jan-0001 as day 1. *)
Definition _ymd2ord (y m d : Z) : Z :=
  _days_before_year y + _days_before_month y m + d.

Definition toordinal (dt : datetime) : Z :=
  _ymd2ord (year dt) (month dt) (day dt).

(** The values the constructor of [datetime] accepts. *)
Definition valid (dt : datetime) : bool :=
  (1 <=? year dt) && (year dt <=? 9999) &&
  (1 <=? month dt) && (month dt <=? 12) &&
  (1 <=? day dt) && (day dt <=? _days_in_month (year dt) (month dt)) &&
  (0 <=? hour dt) && (hour dt <=? 23) &&
  (0 <=? minute dt) && (minute dt <=? 59) &&
  (0 <=? second dt) && (second dt <=? 59) &&
  (0 <=? microsecond dt) && (microsecond dt <=? 999999).

Definition us_per_day : Z := 86400 * 1000000.

(** Microseconds since midnight. *)
Definition time_of_day (dt : datetime) : Z :=
  (second dt + minute dt * 60 + hour dt * 3600) * 1000000 + microsecond dt.

(** [(a - b).days]: [datetime.__sub__] builds
    [timedelta(days1 - days2, secs1 - secs2, us1 - us2)], which [timedelta]
    normalises so that seconds and microseconds are nonnegative: the [days]
    attribute is the floor of the difference in days. *)
Definition sub_days (a b : datetime) : Z :=
  (toordinal a - toordinal b) + (time_of_day a - time_of_day b) / us_per_day.

(** The position of a datetime on the time line, in microseconds. *)
Definition instant (dt : datetime) : Z :=
  toordinal dt * us_per_day + time_of_day dt.

(** *** [datetime.strptime(s, '%Y-%m-%d')]

    The format is compiled to the regular expression
    [(\d\d\d\d)-(1[0-2]|0[1-9]|[1-9])-(3[01]|[12]\d|0[1-9]|[1-9]| [1-9])],
    which must match the whole string; digits are the ASCII ones. *)

Definition digit (c : ascii) : option Z :=
  let n := Z.of_N (N_of_ascii c) in
  if (48 <=? n) && (n <=? 57) then Some (n - 48) else None.

Definition is_dash (c : ascii) : bool := Ascii.eqb c "-"%char.

(** [%Y] is the regular expression [\d\d\d\d]. *)
Definition parse_year (cs : list ascii) : option (Z * list ascii) :=
  match cs with
  | a :: b :: c :: d :: rest =>
      match digit a, digit b, digit c, digit d with
      | Some a, Some b, Some c, Some d =>
          Some (1000 * a + 100 * b + 10 * c + d, rest)
      | _, _, _, _ => None
      end
  | _ => None
  end.

(** Two digits that read as a number between 1 and [hi]. *)
Definition two_digits (hi : Z) (a b : ascii) : option Z :=
  match digit a, digit b with
  | Some x, Some y =>
      let n := 10 * x + y in
      if (1 <=? n) && (n <=? hi) then Some n else None
  | _, _ => None
  end.

(** One digit other than 0. *)
Definition one_digit (a : ascii) : option Z :=
  match digit a with
  | Some x => if 1 <=? x then Some x else None
  | None => None
  end.

(** [%m] is [1[0-2]|0[1-9]|[1-9]]; the format continues with a dash, which
    decides between the alternatives. *)
Definition parse_month (cs : list ascii) : option (Z * list ascii) :=
  match cs with
  | a :: b :: c :: rest =>
      match two_digits 12 a b with
      | Some m => if is_dash c then Some (m, rest) else None
      | None =>
          match one_digit a with
          | Some m => if is_dash b then Some (m, c :: rest) else None
          | None => None
          end
      end
  | a :: b :: nil =>
      match one_digit a with
      | Some m => if is_dash b then Some (m, nil) else None
      | None => None
      end
  | _ => None
  end.

(** [%d] is [3[01]|[12]\d|0[1-9]|[1-9]| [1-9]] and ends the format: whatever
    the first matching alternative leaves over is "unconverted data". *)
Definition parse_day (cs : list ascii) : option Z :=
  match cs with
  | a :: nil => one_digit a
  | a :: b :: nil =>
      match two_digits 31 a b with
      | Some d => Some d
      | None => if Ascii.eqb a " "%char then one_digit b else None
      end
  | _ => None
  end.

Definition parse_ymd (s : string) : option (Z * Z * Z) :=
  match parse_year (list_ascii_of_string s) with
  | Some (y, rest) =>
      match rest with
      | c :: rest =>
          if is_dash c then
            match parse_month rest with
            | Some (m, rest) =>
                match parse_day rest with
                | Some d => Some (y, m, d)
                | None => None
                end
            | None => None
            end
          else None
      | nil => None
      end
  | None => None
  end.

Definition format_msg : string := "time data does not match format '%Y-%m-%d'".
Definition range_msg : string := "day is out of range for month".

(** [datetime.strptime(s, '%Y-%m-%d')]: the fields are read by [parse_ymd] and
    the date is then built, which checks the year and the day of the month.
    Every failure is a [ValueError]; the messages are abridged (Python's name
    the offending text). *)
Definition strptime (s : string) : exn + datetime :=
  match parse_ymd s with
  | Some (y, m, d) =>
      if (1 <=? y) && (d <=? _days_in_month y m)
      then inr (midnight y m d)
      else inl (ValueError range_msg)
  | None => inl (ValueError format_msg)
  end.

(** *** [dt.strftime('%Y-%m-%d')] *)

Definition digit_char (d : Z) : ascii := ascii_of_N (Z.to_N (48 + d mod 10)).

Definition pad2 (n : Z) : string :=
  String (digit_char (n / 10)) (String (digit_char n) EmptyString).

Definition pad4 (n : Z) : string :=
  String (digit_char (n / 1000)) (String (digit_char (n / 100))
    (String (digit_char (n / 10)) (String (digit_char n) EmptyString))).

(** Years are printed on four digits (for years before 1000 the C library
    decides; every platform agrees from year 1000 on). *)
Definition strftime (dt : datetime) : string :=
  (pad4 (year dt) ++ "-" ++ pad2 (month dt) ++ "-" ++ pad2 (day dt))%string.

End Datetime.

Import Datetime.

(** ** Computations: a clock and exceptions *)

(** The successive values [datetime.now()] will return. *)
Definition clock : Type := nat -> datetime.

(** A computation reads the clock and either raises or returns a value and
    the readings that are left. *)
Definition M (A : Type) : Type := clock -> exn + (A * clock).

Definition ret {A} (a : A) : M A := fun c => inr (a, c).

Definition raise {A} (e : exn) : M A := fun _ => inl e.

Definition bind {A B} (m : M A) (f : A -> M B) : M B :=
  fun c => match m c with
           | inl e => inl e
           | inr (a, c') => f a c'
           end.

(** A pure step that may fail. *)
Definition lift {A} (r : exn + A) : M A :=
  fun c => match r with
           | inl e => inl e
           | inr a => inr (a, c)
           end.

(** [datetime.now()]. *)
Definition now : M datetime := fun c => inr (c 0%nat, fun n => c (S n)).

Declare Scope py_scope.
Delimit Scope py_scope with py.
Notation "x <- m ;; k" := (bind m (fun x => k))
  (at level 100, m at next level, right associativity) : py_scope.
Local Open Scope py_scope.

(** [for x in l: s = body(x, s)], stopping at the first exception. *)
Fixpoint for_each {A S} (l : list A) (body : A -> S -> M S) (s : S) : M S :=
  match l with
  | nil => ret s
  | x :: l' => s' <- body x s ;; for_each l' body s'
  end.

(** [range(lo, hi)]. *)
Definition range (lo hi : nat) : list nat := seq lo (hi - lo).

(** [l[i]] for an index that is not negative. *)
Definition getitem {A} (l : list A) (i : nat) : M A :=
  match l !! i with
  | Some a => ret a
  | None => raise (IndexError "list index out of range")
  end.

(** ** Numbers *)

(** The arithmetic [calculate_forward_variance] asks of its volatilities:
    product, difference, quotient, and the conversion of the Python integers
    (day counts, the constant 100) they are combined with. *)
Class PyNumber (F : Type) : Type := {
  of_int : Z -> F;
  mul : F -> F -> F;
  sub : F -> F -> F;
  div : F -> F -> F
}.

(** [x * n] for a Python integer [n]. *)
Definition mul_int {F} `{PyNumber F} (x : F) (n : Z) : F := mul x (of_int n).

(** [x / n] for a Python integer [n]: the quotient, or [ZeroDivisionError]
    when [n] is 0 (an integer converts to zero only if it is 0). *)
Definition truediv_int {F} `{PyNumber F} (x : F) (n : Z) : M F :=
  if n =? 0 then raise (ZeroDivisionError "division by zero")
  else ret (div x (of_int n)).

(** The conversion of a Python integer to a float.  It is exact below 2^53
    and meant for integers below 2^63 in absolute value: day counts between
    two datetimes stay below 3652059. *)
Definition float_of_Z (z : Z) : float :=
  if z <? 0 then PrimFloat.opp (PrimFloat.of_uint63 (Uint63.of_Z (- z)))
  else PrimFloat.of_uint63 (Uint63.of_Z z).

#[export] Instance float_number : PyNumber float := {
  of_int := float_of_Z;
  mul := PrimFloat.mul;
  sub := PrimFloat.sub;
  div := PrimFloat.div
}.

(** Exact rational arithmetic ([fractions.Fraction]). *)
#[export] Instance Q_number : PyNumber Q := {
  of_int := inject_Z;
  mul := Qmult;
  sub := Qminus;
  div := Qdiv
}.

(** [numpy.sqrt] on a float: the IEEE 754 square root, NaN (and a
    [RuntimeWarning], which is not an exception) below zero. *)
Definition np_sqrt (x : float) : float := PrimFloat.sqrt x.

(** ** ImpliedForwardVolCalculator *)

(** A date argument: a string or a [datetime]. *)
Inductive date_arg : Type :=
| Str (s : string)
| Dt (d : datetime).

(** Python's truth value: an empty string is false, a [datetime] is true. *)
Definition truthy (d : date_arg) : bool :=
  match d with
  | Str s => negb (String.eqb s EmptyString)
  | Dt _ => true
  end.

(** The datetime a date argument stands for: a string is parsed, a
    [datetime] is taken as it is. *)
Definition resolve (d : date_arg) : exn + datetime :=
  match d with
  | Str s => strptime s
  | Dt d => inr d
  end.

(** [if isinstance(d, str): d = datetime.strptime(d, '%Y-%m-%d')]. *)
Definition as_datetime (d : date_arg) : M datetime := lift (resolve d).

Definition _calculate_days_between (date1 date2 : date_arg) : M Z :=
  date1 <- as_datetime date1 ;;
  date2 <- as_datetime date2 ;;
  ret (sub_days date2 date1).

(** [trade_date or datetime.now()]. *)
Definition or_now (trade_date : option date_arg) : M date_arg :=
  match trade_date with
  | Some d => if truthy d then ret d else (n <- now ;; ret (Dt n))
  | None => n <- now ;; ret (Dt n)
  end.

Definition calculate_forward_variance {F} `{PyNumber F}
    (vol1 : F) (date1 : date_arg) (vol2 : F) (date2 : date_arg)
    (trade_date : option date_arg) : M F :=
  vol1 <- truediv_int vol1 100 ;;
  vol2 <- truediv_int vol2 100 ;;
  date1 <- as_datetime date1 ;;
  date2 <- as_datetime date2 ;;
  trade_date <- or_now trade_date ;;
  trade_date <- as_datetime trade_date ;;
  t1 <- _calculate_days_between (Dt trade_date) (Dt date1) ;;
  t2 <- _calculate_days_between (Dt trade_date) (Dt date2) ;;
  if t2 <=? t1 then raise (ValueError order_msg)
  else
    let var1 := mul vol1 vol1 in
    let var2 := mul vol2 vol2 in
    let total_var1 := mul_int var1 t1 in
    let total_var2 := mul_int var2 t2 in
    forward_var <- truediv_int (sub total_var2 total_var1) (t2 - t1) ;;
    ret forward_var.

(** [if trade_date and isinstance(trade_date, str):
       trade_date = datetime.strptime(trade_date, '%Y-%m-%d')]. *)
Definition parse_trade_date (trade_date : option date_arg)
  : M (option date_arg) :=
  match trade_date with
  | Some (Str s) =>
      if truthy (Str s) then d <- lift (strptime s) ;; ret (Some (Dt d))
      else ret trade_date
  | _ => ret trade_date
  end.

Definition calculate_forward_vol
    (vol1 : float) (date1 : date_arg) (vol2 : float) (date2 : date_arg)
    (trade_date : option date_arg) : M float :=
  date1 <- as_datetime date1 ;;
  date2 <- as_datetime date2 ;;
  trade_date <- parse_trade_date trade_date ;;
  forward_var <-
    calculate_forward_variance vol1 (Dt date1) vol2 (Dt date2) trade_date ;;
  ret (np_sqrt forward_var).

(** A [pandas.DataFrame] of floats with labelled axes. *)
Record DataFrame : Type := mk_DataFrame {
  values : list (list float);
  index : list string;
  columns : list string
}.

(** [numpy.zeros((n, m))]. *)
Definition zeros (n m : nat) : list (list float) :=
  replicate n (replicate m 0%float).

(** [matrix[i][j] = v].  The builder only writes at [i < j < n], inside the
    matrix (numpy raises [IndexError] outside). *)
Definition setitem2 (matrix : list (list float)) (i j : nat) (v : float)
  : list (list float) :=
  alter (fun row => <[j := v]> row) i matrix.

Definition create_forward_vol_matrix
    (expiries : list date_arg) (vols : list float) : M DataFrame :=
  let n := length expiries in
  let matrix := zeros n n in
  expiry_dates <-
    for_each expiries
      (fun expiry expiry_dates =>
         d <- as_datetime expiry ;; ret (expiry_dates ++ [d]))
      [] ;;
  matrix <-
    for_each (range 0 n)
      (fun i matrix =>
         for_each (range (i + 1) n)
           (fun j matrix =>
              vol_i <- getitem vols i ;;
              date_i <- getitem expiry_dates i ;;
              vol_j <- getitem vols j ;;
              date_j <- getitem expiry_dates j ;;
              forward_vol <-
                calculate_forward_vol vol_i (Dt date_i) vol_j (Dt date_j) None ;;
              ret (setitem2 matrix i j forward_vol))
           matrix)
      matrix ;;
  ret (mk_DataFrame matrix
         (map strftime expiry_dates) (map strftime expiry_dates)).

(** A clock that stands still. *)
Definition frozen (d : datetime) : clock := fun _ => d.

(** The value a computation returns, if it returns. *)
Definition result_of {A} (r : exn + (A * clock)) : option A :=
  match r with
  | inl _ => None
  | inr (a, _) => Some a
  end.

(** The exception a computation raises, if it raises. *)
Definition raised {A} (r : exn + (A * clock)) : option exn :=
  match r with
  | inl e => Some e
  | inr _ => None
  end.

(** ** EventVolatilityExtractor *)

(** The dictionary [extract_volatilities] returns: six fixed keys. *)
Record volatilities : Type := mk_volatilities {
  pre_event_vol : float;
  event_vol : float;
  post_event_vol : float;
  total_days : Z;
  days_to_event : Z;
  days_after_event : Z
}.

Section Extractor.

(** The builtin [round(x, ndigits)].  It dispatches on the type of [x]:
    [pre_event_vol] and [post_event_vol] are Python floats, [event_vol] is a
    [numpy.float64] (the product of a float and of the result of
    [numpy.sqrt]).  No property below depends on how either rounds, so both
    are left open here; [py_round] and [np_round] further down run them. *)
Variable round_float : float -> Z -> float.
Variable round_float64 : float -> Z -> float.

(** The dates are passed to [datetime.strptime] as they are: strings.  The
    two percentages are floats, on which [float(x)] is the identity; a
    percentage of another type (a string typed into a form, say), on which
    [float(x)] converts and can raise [ValueError], is outside this
    embedding. *)
Definition extract_volatilities
    (trade_date expiry_date event_date : string)
    (expiry_atf_vol expected_move_size : float)
    (calendar_model : string) : M volatilities :=
  trade_dt <- lift (strptime trade_date) ;;
  expiry_dt <- lift (strptime expiry_date) ;;
  event_dt <- lift (strptime event_date) ;;
  let expiry_atf_vol := (expiry_atf_vol / 100)%float in
  let expected_move_size := (expected_move_size / 100)%float in
  let total_days := sub_days expiry_dt trade_dt in
  let days_to_event := sub_days event_dt trade_dt in
  let days_after_event := sub_days expiry_dt event_dt in
  let pre_event_vol := (expiry_atf_vol * 0.8)%float in
  let event_vol := (expiry_atf_vol * np_sqrt (expected_move_size * 2))%float in
  let post_event_vol := (expiry_atf_vol * 0.9)%float in
  ret (mk_volatilities
         (round_float (pre_event_vol * 100)%float 2)
         (round_float64 (event_vol * 100)%float 2)
         (round_float (post_event_vol * 100)%float 2)
         total_days days_to_event days_after_event).

End Extractor.

(** *** Running [round] *)

(** [float.__round__]: the decimal nearest to the exact value of [x], ties to
    even, converted back to the nearest float.  Exact for [0 <= ndigits] and
    [|x| * 10 ^ ndigits < 2 ^ 53], which covers percentages. *)
Definition py_round (x : float) (ndigits : Z) : float :=
  match Prim2SF x with
  | S754_finite s m e =>
      if 0 <=? e then x
      else
        let num := Z.pos m * 10 ^ ndigits in
        let den := 2 ^ (- e) in
        let q := num / den in
        let r := num mod den in
        let n := if 2 * r <? den then q
                 else if den <? 2 * r then q + 1
                 else if Z.even q then q else q + 1 in
        let y := (float_of_Z n / float_of_Z (10 ^ ndigits))%float in
        if s then (- y)%float else y
  | _ => x
  end.

(** [rint]: the nearest integer, ties to even, keeping the sign. *)
Definition rint (y : float) : float :=
  let two52 := 4503599627370496%float in
  if (PrimFloat.abs y <? two52)%float then
    let r := (PrimFloat.abs y + two52 - two52)%float in
    if get_sign y then (- r)%float else r
  else y.

(** [numpy.float64.__round__], that is [numpy.round]: scale, [rint],
    scale back. *)
Definition np_round (x : float) (ndigits : Z) : float :=
  if 0 <=? ndigits then
    let f := float_of_Z (10 ^ ndigits) in (rint (x * f) / f)%float
  else
    let f := float_of_Z (10 ^ (- ndigits)) in (rint (x / f) * f)%float.

(** ** Definitions used in the statements *)

(** The trade date of a call: the argument if it is given and true, the
    clock otherwise. *)
Definition trade_datetime (trade_date : option date_arg) : M datetime :=
  trade_date <- or_now trade_date ;; as_datetime trade_date.

(** The arithmetic of [calculate_forward_variance] on its day counts. *)
Definition forward_var_of {F} `{PyNumber F}
    (vol1 : F) (t1 : Z) (vol2 : F) (t2 : Z) : F :=
  let vol1 := div vol1 (of_int 100) in
  let vol2 := div vol2 (of_int 100) in
  div (sub (mul_int (mul vol2 vol2) t2) (mul_int (mul vol1 vol1) t1))
      (of_int (t2 - t1)).

(** The entry of a matrix at row [i] and column [j]. *)
Definition cell (matrix : list (list float)) (i j : nat) : option float :=
  match matrix !! i with
  | Some row => row !! j
  | None => None
  end.

(** All the date arguments of a list resolved, or the first failure. *)
Fixpoint resolve_all (l : list date_arg) : exn + list datetime :=
  match l with
  | nil => inr nil
  | x :: l' =>
      match resolve x with
      | inl e => inl e
      | inr d =>
          match resolve_all l' with
          | inl e => inl e
          | inr ds => inr (d :: ds)
          end
      end
  end.

(** The two loops of [create_forward_vol_matrix], named. *)
Definition collect_dates (expiries : list date_arg) : M (list datetime) :=
  for_each expiries
    (fun expiry expiry_dates =>
       d <- as_datetime expiry ;; ret (expiry_dates ++ [d]))
    [].

Definition fill_cell (vols : list float) (expiry_dates : list datetime)
    (i j : nat) (matrix : list (list float)) : M (list (list float)) :=
  vol_i <- getitem vols i ;;
  date_i <- getitem expiry_dates i ;;
  vol_j <- getitem vols j ;;
  date_j <- getitem expiry_dates j ;;
  forward_vol <-
    calculate_forward_vol vol_i (Dt date_i) vol_j (Dt date_j) None ;;
  ret (setitem2 matrix i j forward_vol).

Definition fill_matrix (vols : list float) (expiry_dates : list datetime)
    (n : nat) (matrix : list (list float)) : M (list (list float)) :=
  for_each (range 0 n)
    (fun i matrix =>
       for_each (range (i + 1) n) (fill_cell vols expiry_dates i) matrix)
    matrix.

(** A clock for the examples: the morning of 2024-03-01, standing still. *)
Definition example_clock : clock := frozen (mk_datetime 2024 3 1 6 30 0 0).

(** ** Definitions used in the further properties *)

(** [c'] is what is left of the clock [c] after some readings. *)
Definition later (c c' : clock) : Prop :=
  exists k : nat, forall n : nat, c' n = c (k + n)%nat.

(** A square matrix of side [n]. *)
Definition square (n : nat) (matrix : list (list float)) : Prop :=
  length matrix = n /\ forall row, row ∈ matrix -> length row = n.

(** The cell [(i, j)] of [matrix] holds the forward volatility between the
    expiries [i] and [j], for a trade date the clock [c] showed. *)
Definition holds_forward_vol (c : clock) (vols : list float)
    (dates : list datetime) (matrix : list (list float)) (i j : nat) : Prop :=
  exists (k : nat) (vol_i vol_j : float) (date_i date_j : datetime) (v : float),
    vols !! i = Some vol_i /\ dates !! i = Some date_i /\
    vols !! j = Some vol_j /\ dates !! j = Some date_j /\
    cell matrix i j = Some v /\
    calculate_forward_vol vol_i (Dt date_i) vol_j (Dt date_j)
      (Some (Dt (c k))) c = inr (v, c).

(** The calendar order of two days: year, then month, then day. *)
Definition date_before (a b : datetime) : Prop :=
  year a < year b \/
  (year a = year b /\
   (month a < month b \/ (month a = month b /\ day a < day b))).

(** * Properties *)

(** ** Day counts *)

Lemma us_per_day_pos : 0 < us_per_day.
Proof. reflexivity. Qed.

(** The day count is the floor of the distance on the time line. *)
Lemma sub_days_instant (a b : datetime) :
  sub_days a b = (instant a - instant b) / us_per_day.
Proof.
  unfold sub_days, instant.
  replace (toordinal a * us_per_day + time_of_day a
           - (toordinal b * us_per_day + time_of_day b))
    with (time_of_day a - time_of_day b
          + (toordinal a - toordinal b) * us_per_day) by ring.
  rewrite Z.div_add by (pose proof us_per_day_pos; lia).
  ring.
Qed.

(** A strictly larger day count from the same origin means a strictly later
    datetime. *)
Lemma sub_days_lt_instant (a b origin : datetime) :
  sub_days a origin < sub_days b origin -> instant a < instant b.
Proof.
  rewrite !sub_days_instant. intros Hlt.
  destruct (Z_lt_le_dec (instant a) (instant b)) as [|Hle]; [assumption|].
  exfalso.
  assert (Hmono : (instant b - instant origin) / us_per_day
                  <= (instant a - instant origin) / us_per_day).
  { apply Z.div_le_mono; [apply us_per_day_pos | lia]. }
  lia.
Qed.

Lemma sub_days_midnight (y1 m1 d1 y2 m2 d2 : Z) :
  sub_days (midnight y1 m1 d1) (midnight y2 m2 d2)
  = _ymd2ord y1 m1 d1 - _ymd2ord y2 m2 d2.
Proof.
  unfold sub_days, toordinal, time_of_day. simpl.
  rewrite Z.div_0_l by discriminate. ring.
Qed.

(** What [strptime] returns is the midnight of a day. *)
Lemma strptime_midnight (s : string) (dt : datetime) :
  strptime s = inr dt -> dt = midnight (year dt) (month dt) (day dt).
Proof.
  unfold strptime. destruct (parse_ymd s) as [[[y m] d]|]; [|discriminate].
  destruct (_ && _); [|discriminate].
  intros [= <-]. reflexivity.
Qed.

Lemma sub_days_strptime (s1 s2 : string) (a b : datetime) :
  strptime s1 = inr a -> strptime s2 = inr b ->
  sub_days a b = toordinal a - toordinal b.
Proof.
  intros Ha Hb.
  rewrite (strptime_midnight _ _ Ha), (strptime_midnight _ _ Hb).
  apply sub_days_midnight.
Qed.

(** Between two datetimes at the same time of day, day counts from a common
    origin compare as the calendar days do. *)
Lemma sub_days_same_time (a b origin : datetime) :
  time_of_day a = time_of_day b ->
  sub_days a origin < sub_days b origin <-> toordinal a < toordinal b.
Proof. unfold sub_days. intros ->. lia. Qed.

(** ** What [strptime] accepts *)

Lemma digit_range (c : ascii) (x : Z) : digit c = Some x -> 0 <= x <= 9.
Proof.
  unfold digit. destruct (_ && _) eqn:Hc; [|discriminate].
  intros [= <-]. apply andb_true_iff in Hc as [Hlo Hhi].
  apply Z.leb_le in Hlo. apply Z.leb_le in Hhi. lia.
Qed.

Lemma two_digits_range (hi : Z) (a b : ascii) (n : Z) :
  two_digits hi a b = Some n -> 1 <= n <= hi.
Proof.
  unfold two_digits. destruct (digit a); [|discriminate].
  destruct (digit b); [|discriminate].
  destruct (_ && _) eqn:Hc; [|discriminate].
  intros [= <-]. apply andb_true_iff in Hc as [Hlo Hhi].
  apply Z.leb_le in Hlo. apply Z.leb_le in Hhi. lia.
Qed.

Lemma one_digit_range (a : ascii) (x : Z) : one_digit a = Some x -> 1 <= x <= 9.
Proof.
  unfold one_digit. destruct (digit a) as [y|] eqn:Hd; [|discriminate].
  destruct (1 <=? y) eqn:Hc; [|discriminate].
  intros [= <-]. apply Z.leb_le in Hc. apply digit_range in Hd. lia.
Qed.

Lemma parse_year_range (cs rest : list ascii) (y : Z) :
  parse_year cs = Some (y, rest) -> 0 <= y <= 9999.
Proof.
  destruct cs as [|a [|b [|c [|d cs]]]]; try discriminate. simpl.
  destruct (digit a) as [xa|] eqn:Ha; [|discriminate].
  destruct (digit b) as [xb|] eqn:Hb; [|discriminate].
  destruct (digit c) as [xc|] eqn:Hc; [|discriminate].
  destruct (digit d) as [xd|] eqn:Hd; [|discriminate].
  intros [= <- _].
  apply digit_range in Ha, Hb, Hc, Hd. lia.
Qed.

Lemma parse_month_range (cs rest : list ascii) (m : Z) :
  parse_month cs = Some (m, rest) -> 1 <= m <= 12.
Proof.
  destruct cs as [|a [|b [|c cs]]]; try discriminate; simpl.
  - destruct (one_digit a) as [x|] eqn:Ha; [|discriminate].
    destruct (is_dash b); [|discriminate].
    intros [= <- _]. apply one_digit_range in Ha. lia.
  - destruct (two_digits 12 a b) as [x|] eqn:Hab.
    + destruct (is_dash c); [|discriminate].
      intros [= <- _]. apply two_digits_range in Hab. exact Hab.
    + destruct (one_digit a) as [x|] eqn:Ha; [|discriminate].
      destruct (is_dash b); [|discriminate].
      intros [= <- _]. apply one_digit_range in Ha. lia.
Qed.

Lemma parse_day_range (cs : list ascii) (d : Z) :
  parse_day cs = Some d -> 1 <= d <= 31.
Proof.
  destruct cs as [|a [|b [|c cs]]]; try discriminate; simpl.
  - intros Ha. apply one_digit_range in Ha. lia.
  - destruct (two_digits 31 a b) as [x|] eqn:Hab.
    + intros [= <-]. apply two_digits_range in Hab. exact Hab.
    + destruct (Ascii.eqb a " "); [|discriminate].
      intros Hb. apply one_digit_range in Hb. lia.
Qed.

(** Every datetime [strptime] returns is one the constructor accepts. *)
Lemma strptime_valid (s : string) (dt : datetime) :
  strptime s = inr dt -> valid dt = true.
Proof.
  unfold strptime, parse_ymd.
  destruct (parse_year _) as [[y rest]|] eqn:Hy; [|discriminate].
  destruct rest as [|c rest]; [discriminate|].
  destruct (is_dash c); [|discriminate].
  destruct (parse_month rest) as [[m rest']|] eqn:Hm; [|discriminate].
  destruct (parse_day rest') as [d|] eqn:Hd; [|discriminate].
  destruct (_ && _) eqn:Hc; [|discriminate].
  intros [= <-].
  apply andb_true_iff in Hc as [Hy1 Hdim].
  apply Z.leb_le in Hy1.
  apply parse_year_range in Hy. apply parse_month_range in Hm.
  apply parse_day_range in Hd.
  unfold valid, midnight. cbn [year month day hour minute second microsecond].
  rewrite Hdim.
  repeat (apply andb_true_intro; split); try reflexivity; apply Z.leb_le; lia.
Qed.

(** ** Running the calculator *)

(** [calculate_forward_variance] step by step: the two expiries, the trade
    date, the guard and the quotient. *)
Lemma forward_variance_run {F} `{PyNumber F}
    (vol1 vol2 : F) (date1 date2 : date_arg)
    (trade_date : option date_arg) (c : clock) :
  calculate_forward_variance vol1 date1 vol2 date2 trade_date c =
  match resolve date1 with
  | inl e => inl e
  | inr d1 =>
      match resolve date2 with
      | inl e => inl e
      | inr d2 =>
          match trade_datetime trade_date c with
          | inl e => inl e
          | inr (td, c') =>
              if sub_days d2 td <=? sub_days d1 td
              then inl (ValueError order_msg)
              else inr (forward_var_of vol1 (sub_days d1 td)
                                       vol2 (sub_days d2 td), c')
          end
      end
  end.
Proof.
  unfold calculate_forward_variance, trade_datetime, truediv_int,
    _calculate_days_between, as_datetime, bind, ret, lift, raise.
  simpl.
  destruct (resolve date1) as [e|d1]; [reflexivity|].
  destruct (resolve date2) as [e|d2]; [reflexivity|].
  destruct (or_now trade_date c) as [e|[td c']]; [reflexivity|].
  destruct (resolve td) as [e|tdt]; [reflexivity|].
  simpl.
  destruct (sub_days d2 tdt <=? sub_days d1 tdt) eqn:Hguard; [reflexivity|].
  apply Z.leb_gt in Hguard.
  destruct (sub_days d2 tdt - sub_days d1 tdt =? 0) eqn:Hz.
  - apply Z.eqb_eq in Hz. lia.
  - reflexivity.
Qed.

(** An explicit trade date leaves the clock alone. *)
Lemma trade_datetime_explicit (trade_date : date_arg) (td : datetime) (c : clock) :
  truthy trade_date = true -> resolve trade_date = inr td ->
  trade_datetime (Some trade_date) c = inr (td, c).
Proof.
  intros Ht Hr. unfold trade_datetime, or_now, as_datetime, bind, ret, lift.
  rewrite Ht, Hr. reflexivity.
Qed.

(** Without a trade date the clock is read once. *)
Lemma trade_datetime_now (c : clock) :
  trade_datetime None c = inr (c 0%nat, fun n => c (S n)).
Proof. reflexivity. Qed.

(** A trade date given as a string that is not empty is parsed. *)
Lemma trade_datetime_str (s : string) (c : clock) :
  String.eqb s EmptyString = false ->
  trade_datetime (Some (Str s)) c =
  match strptime s with
  | inl e => inl e
  | inr d => inr (d, c)
  end.
Proof.
  intros Hs. unfold trade_datetime, or_now, as_datetime, bind, ret, lift.
  simpl. rewrite Hs. simpl. destruct (strptime s); reflexivity.
Qed.

(** [calculate_forward_vol] is [calculate_forward_variance] followed by
    [numpy.sqrt]: its own date conversions change nothing. *)
Lemma forward_vol_run
    (vol1 vol2 : float) (date1 date2 : date_arg)
    (trade_date : option date_arg) (c : clock) :
  calculate_forward_vol vol1 date1 vol2 date2 trade_date c =
  match calculate_forward_variance vol1 date1 vol2 date2 trade_date c with
  | inl e => inl e
  | inr (forward_var, c') => inr (np_sqrt forward_var, c')
  end.
Proof.
  unfold calculate_forward_vol, as_datetime, bind, ret, lift.
  rewrite (forward_variance_run vol1 vol2 date1 date2 trade_date c).
  destruct (resolve date1) as [e|d1]; [reflexivity|].
  destruct (resolve date2) as [e|d2]; [reflexivity|].
  destruct trade_date as [[s|d]|]; cbn [parse_trade_date truthy];
    try (unfold ret; rewrite forward_variance_run; reflexivity).
  destruct (String.eqb s EmptyString) eqn:Hs; cbn [negb]; unfold bind, ret, lift.
  - rewrite forward_variance_run. reflexivity.
  - rewrite (trade_datetime_str s c Hs).
    destruct (strptime s) as [e|tdt]; [reflexivity|].
    rewrite forward_variance_run. reflexivity.
Qed.

(** ** Forward variance *)

Lemma inject_Z_nonzero (z : Z) : z <> 0 -> ~ (inject_Z z == 0)%Q.
Proof. intros Hz Heq. apply Hz. unfold Qeq in Heq. simpl in Heq. lia. Qed.



(** C2.  The scenario of the specification: trade date 2024-03-01, 40% to
    2024-03-21 and 42% to 2024-03-31.  The day counts are 20 and 30, the
    total variances 3.2 and 5.292, and the forward variance is 0.2092 exactly
    in rational arithmetic; on floats the call returns 0.2092 up to 1e-15 and
    the forward volatility lies between 0.45735 and 0.45745. *)
Theorem forward_vol_scenario (c : clock) :
  let trade_date := Str "2024-03-01" in
  let date1 := Str "2024-03-21" in
  let date2 := Str "2024-03-31" in
  _calculate_days_between trade_date date1 c = inr (20, c) /\
  _calculate_days_between trade_date date2 c = inr (30, c) /\
  (mul_int (mul (div 40 (of_int 100)) (div 40 (of_int 100))) 20 == 3.2)%Q /\
  (mul_int (mul (div 42 (of_int 100)) (div 42 (of_int 100))) 30 == 5.292)%Q /\
  (exists fv : Q,
     calculate_forward_variance 40%Q date1 42%Q date2 (Some trade_date) c
       = inr (fv, c) /\ (fv == 0.2092)%Q) /\
  (exists fv : float,
     calculate_forward_variance 40%float date1 42%float date2
       (Some trade_date) c = inr (fv, c) /\
     (PrimFloat.abs (fv - 0.2092) <=? 1e-15)%float = true) /\
  (exists v : float,
     calculate_forward_vol 40%float date1 42%float date2 (Some trade_date) c
       = inr (v, c) /\
     (0.45735 <? v)%float = true /\ (v <? 0.45745)%float = true).
Proof.
  cbv zeta.
  refine (conj _ (conj _ (conj _ (conj _ (conj _ (conj _ _)))))).
  - vm_compute. reflexivity.
  - vm_compute. reflexivity.
  - vm_compute. reflexivity.
  - vm_compute. reflexivity.
  - eexists. split; [vm_compute; reflexivity | vm_compute; reflexivity].
  - eexists. split; [vm_compute; reflexivity | vm_compute; reflexivity].
  - eexists. split; [vm_compute; reflexivity |].
    split; vm_compute; reflexivity.
Qed.

(** The values the two float calls of the scenario return. *)
Example forward_vol_scenario_floats :
  result_of (calculate_forward_variance 40%float (Str "2024-03-21") 42%float
               (Str "2024-03-31") (Some (Str "2024-03-01")) example_clock)
    = Some 0.20919999999999983%float /\
  result_of (calculate_forward_vol 40%float (Str "2024-03-21") 42%float
               (Str "2024-03-31") (Some (Str "2024-03-01")) example_clock)
    = Some 0.45738386504117068%float.
Proof. split; vm_compute; reflexivity. Qed.

(** On floats the identity of C1 holds up to rounding; on the scenario the
    two sides differ by less than 1e-15. *)
Example forward_variance_additivity_floats :
  exists fv : float,
    result_of (calculate_forward_variance 40%float (Str "2024-03-21") 42%float
                 (Str "2024-03-31") (Some (Str "2024-03-01")) example_clock)
      = Some fv /\
    (PrimFloat.abs (fv * 10 + 40 / 100 * (40 / 100) * 20
                    - 42 / 100 * (42 / 100) * 30) <? 1e-15)%float = true.
Proof. eexists. split; vm_compute; reflexivity. Qed.

(** ** Negative volatilities *)

(** C5, the claim as stated fails: a volatility of -40 is accepted and the
    call returns what it returns for 40. *)
Lemma forward_variance_negative_vol_returns :
  raised (calculate_forward_variance (-40)%float (Str "2024-03-21") 42%float
            (Str "2024-03-31") (Some (Str "2024-03-01")) example_clock)
    = None /\
  result_of (calculate_forward_variance (-40)%float (Str "2024-03-21") 42%float
               (Str "2024-03-31") (Some (Str "2024-03-01")) example_clock)
    = Some 0.20919999999999983%float.
Proof. split; vm_compute; reflexivity. Qed.

(** C5, amended.  [calculate_forward_variance] checks no sign: for every
    number type and all volatilities, negative ones included, a call with
    resolvable dates, an explicit trade date and [t1 < t2] raises nothing and
    returns the quotient computed from the squared volatilities. *)
Theorem forward_variance_no_sign_check {F} `{PyNumber F}
    (vol1 vol2 : F) (date1 date2 trade_date : date_arg)
    (d1 d2 td : datetime) (c : clock) :
  resolve date1 = inr d1 ->
  resolve date2 = inr d2 ->
  truthy trade_date = true ->
  resolve trade_date = inr td ->
  sub_days d1 td < sub_days d2 td ->
  calculate_forward_variance vol1 date1 vol2 date2 (Some trade_date) c
    = inr (forward_var_of vol1 (sub_days d1 td) vol2 (sub_days d2 td), c).
Proof.
  intros H1 H2 Ht Htd Hlt.
  rewrite forward_variance_run, H1, H2, (trade_datetime_explicit _ _ _ Ht Htd).
  destruct (Z.leb_spec (sub_days d2 td) (sub_days d1 td)) as [Hle|_]; [lia|].
  reflexivity.
Qed.

Lemma forward_variance_no_sign_check_witness :
  calculate_forward_variance (-40)%float (Str "2024-03-21") (-42)%float
    (Str "2024-03-31") (Some (Str "2024-03-01")) example_clock
    = inr (forward_var_of (-40)%float 20 (-42)%float 30, example_clock).
Proof.
  exact (forward_variance_no_sign_check (-40)%float (-42)%float
           (Str "2024-03-21") (Str "2024-03-31") (Str "2024-03-01")
           (midnight 2024 3 21) (midnight 2024 3 31) (midnight 2024 3 1)
           example_clock eq_refl eq_refl eq_refl eq_refl eq_refl).
Defined.

(** In exact arithmetic only the absolute values of the volatilities count. *)
Lemma forward_var_of_abs (vol1 vol2 : Q) (t1 t2 : Z) :
  t1 < t2 ->
  (forward_var_of (Qabs vol1) t1 (Qabs vol2) t2
   == forward_var_of vol1 t1 vol2 t2)%Q.
Proof.
  intros Hlt. unfold forward_var_of, mul_int. cbn [div mul sub of_int Q_number].
  assert (Hsq : forall q : Q, (Qabs q * Qabs q == q * q)%Q).
  { intros q. destruct (Qlt_le_dec q 0) as [Hn|Hp].
    - rewrite (Qabs_neg q) by (apply Qlt_le_weak, Hn). ring.
    - rewrite (Qabs_pos q Hp). reflexivity. }
  assert (Hnz : ~ (inject_Z (t2 - t1) == 0)%Q) by (apply inject_Z_nonzero; lia).
  change (inject_Z 100) with 100%Q.
  assert (Hdiv : forall q : Q, (q / 100 * (q / 100) == q * q / (100 * 100))%Q)
    by (intros q; field).
  rewrite !Hdiv.
  rewrite !Hsq. field. exact Hnz.
Qed.

(** ** Negative forward variance *)

(** [numpy.sqrt] below zero is NaN. *)
Lemma np_sqrt_negative (x : float) : (x <? 0)%float = true -> np_sqrt x = nan.
Proof.
  intros Hlt. apply Prim2SF_inj. unfold np_sqrt. rewrite sqrt_spec.
  rewrite ltb_spec in Hlt.
  change (Prim2SF 0) with (S754_zero false) in Hlt.
  change (Prim2SF nan) with S754_nan.
  destruct (Prim2SF x) as [s|s| |s m e]; simpl in Hlt;
    try discriminate; destruct s; try discriminate; reflexivity.
Qed.

(** C3, the claim as stated fails: 40% to 2024-03-21 and 20% to 2024-03-31
    give a negative forward variance, and [calculate_forward_vol] raises
    nothing and returns NaN. *)
Lemma forward_vol_negative_variance_example :
  exists fv : float,
    result_of (calculate_forward_variance 40%float (Str "2024-03-21") 20%float
                 (Str "2024-03-31") (Some (Str "2024-03-01")) example_clock)
      = Some fv /\
    (fv <? 0)%float = true /\
    raised (calculate_forward_vol 40%float (Str "2024-03-21") 20%float
              (Str "2024-03-31") (Some (Str "2024-03-01")) example_clock)
      = None /\
    result_of (calculate_forward_vol 40%float (Str "2024-03-21") 20%float
                 (Str "2024-03-31") (Some (Str "2024-03-01")) example_clock)
      = Some nan.
Proof.
  eexists. split; [vm_compute; reflexivity|].
  repeat split; vm_compute; reflexivity.
Qed.

(** C3, amended.  Whenever [calculate_forward_variance] returns a negative
    value, [calculate_forward_vol] on the same arguments raises nothing and
    returns NaN. *)
Theorem forward_vol_negative_variance_nan
    (vol1 vol2 : float) (date1 date2 : date_arg)
    (trade_date : option date_arg) (c c' : clock) (fv : float) :
  calculate_forward_variance vol1 date1 vol2 date2 trade_date c
    = inr (fv, c') ->
  (fv <? 0)%float = true ->
  calculate_forward_vol vol1 date1 vol2 date2 trade_date c = inr (nan, c').
Proof.
  intros Hrun Hneg. rewrite forward_vol_run, Hrun.
  rewrite (np_sqrt_negative fv Hneg). reflexivity.
Qed.

Lemma forward_vol_negative_variance_nan_witness :
  calculate_forward_vol 40%float (Str "2024-03-21") 20%float (Str "2024-03-31")
    (Some (Str "2024-03-01")) example_clock = inr (nan, example_clock).
Proof.
  apply (forward_vol_negative_variance_nan 40%float 20%float
           (Str "2024-03-21") (Str "2024-03-31") (Some (Str "2024-03-01"))
           example_clock example_clock (-0.20000000000000004)%float).
  - vm_compute. reflexivity.
  - vm_compute. reflexivity.
Defined.

(** ** Loops *)

Section ForEach.

Context {A S : Type}.
Implicit Types (l : list A) (body : A -> S -> M S) (s : S) (c : clock).

Lemma for_each_cons x l body s c :
  for_each (x :: l) body s c =
  match body x s c with
  | inl e => inl e
  | inr (s', c') => for_each l body s' c'
  end.
Proof. reflexivity. Qed.

(** A property of the state that every iteration keeps holds at the end. *)
Lemma for_each_inv (P : S -> Prop) l body :
  (forall x s c s' c', x ∈ l -> P s -> body x s c = inr (s', c') -> P s') ->
  forall s c s' c', P s -> for_each l body s c = inr (s', c') -> P s'.
Proof.
  induction l as [|x l IH]; intros Hbody s c s' c' HP Hrun.
  - injection Hrun as <- _. exact HP.
  - rewrite for_each_cons in Hrun.
    destruct (body x s c) as [e|[s1 c1]] eqn:Hx; [discriminate|].
    apply (IH (fun y s c s' c' Hy => Hbody y s c s' c' (list_elem_of_further _ _ _ Hy))
              s1 c1 s' c'); [|exact Hrun].
    apply (Hbody x s c s1 c1); [left | exact HP | exact Hx].
Qed.

(** A loop that ends has run every iteration to its end. *)
Lemma for_each_ok_all l body s c s' c' :
  for_each l body s c = inr (s', c') ->
  forall x, x ∈ l -> exists s1 c1 s2 c2, body x s1 c1 = inr (s2, c2).
Proof.
  revert s c. induction l as [|x l IH]; intros s c Hrun y Hy.
  - inversion Hy.
  - rewrite for_each_cons in Hrun.
    destruct (body x s c) as [e|[s1 c1]] eqn:Hx; [discriminate|].
    apply elem_of_cons in Hy as [->|Hy].
    + exists s, c, s1, c1. exact Hx.
    + exact (IH s1 c1 Hrun y Hy).
Qed.

(** A loop that raises does so in one of its iterations. *)
Lemma for_each_raises l body s c e :
  for_each l body s c = inl e ->
  exists x s1 c1, x ∈ l /\ body x s1 c1 = inl e.
Proof.
  revert s c. induction l as [|x l IH]; intros s c Hrun.
  - discriminate.
  - rewrite for_each_cons in Hrun.
    destruct (body x s c) as [e'|[s1 c1]] eqn:Hx.
    + injection Hrun as ->. exists x, s, c. split; [left | exact Hx].
    + destruct (IH s1 c1 Hrun) as (y & s2 & c2 & Hy & Hbody).
      exists y, s2, c2. split; [right; exact Hy | exact Hbody].
Qed.

(** A loop whose iterations all end ends. *)
Lemma for_each_returns l body :
  (forall x s c, x ∈ l -> exists s' c', body x s c = inr (s', c')) ->
  forall s c, exists s' c', for_each l body s c = inr (s', c').
Proof.
  induction l as [|x l IH]; intros Hbody s c.
  - exists s, c. reflexivity.
  - rewrite for_each_cons.
    destruct (Hbody x s c) as (s1 & c1 & ->); [left|].
    apply IH. intros y s2 c2 Hy. apply Hbody. right. exact Hy.
Qed.

End ForEach.

Lemma elem_of_range (lo hi k : nat) : k ∈ range lo hi <-> (lo <= k < hi)%nat.
Proof. unfold range. rewrite elem_of_seq. lia. Qed.

(** ** The matrix builder *)

Lemma builder_unfold (expiries : list date_arg) (vols : list float) (c : clock) :
  create_forward_vol_matrix expiries vols c =
  match collect_dates expiries c with
  | inl e => inl e
  | inr (expiry_dates, c1) =>
      match fill_matrix vols expiry_dates (length expiries)
              (zeros (length expiries) (length expiries)) c1 with
      | inl e => inl e
      | inr (matrix, c2) =>
          inr (mk_DataFrame matrix (map strftime expiry_dates)
                 (map strftime expiry_dates), c2)
      end
  end.
Proof.
  unfold create_forward_vol_matrix, bind, ret.
  change (for_each expiries _ [] c) with (collect_dates expiries c).
  destruct (collect_dates expiries c) as [e|[dates c1]]; [reflexivity|].
  reflexivity.
Qed.

(** The first loop resolves the expiries in order and reads no clock. *)
Lemma collect_dates_from (expiries : list date_arg) (acc : list datetime) (c : clock) :
  for_each expiries
    (fun expiry expiry_dates =>
       d <- as_datetime expiry ;; ret (expiry_dates ++ [d])) acc c =
  match resolve_all expiries with
  | inl e => inl e
  | inr dates => inr (acc ++ dates, c)
  end.
Proof.
  revert acc. induction expiries as [|x l IH]; intros acc.
  - simpl. unfold ret. rewrite app_nil_r. reflexivity.
  - rewrite for_each_cons. unfold bind, as_datetime, lift, ret at 1.
    simpl resolve_all.
    destruct (resolve x) as [e|d]; [reflexivity|].
    rewrite IH. destruct (resolve_all l) as [e|ds]; [reflexivity|].
    rewrite <- app_assoc. reflexivity.
Qed.

Lemma collect_dates_run (expiries : list date_arg) (c : clock) :
  collect_dates expiries c =
  match resolve_all expiries with
  | inl e => inl e
  | inr dates => inr (dates, c)
  end.
Proof. unfold collect_dates. rewrite collect_dates_from. reflexivity. Qed.

Lemma resolve_all_length (l : list date_arg) (dates : list datetime) :
  resolve_all l = inr dates -> length dates = length l.
Proof.
  revert dates. induction l as [|x l IH]; intros dates Hr; simpl in Hr.
  - injection Hr as <-. reflexivity.
  - destruct (resolve x) as [e|d]; [discriminate|].
    destruct (resolve_all l) as [e|ds]; [discriminate|].
    injection Hr as <-. simpl. f_equal. apply IH. reflexivity.
Qed.

(** Each expiry resolves to the date at its position. *)
Lemma resolve_all_lookup (l : list date_arg) (dates : list datetime) :
  resolve_all l = inr dates ->
  forall i x, l !! i = Some x ->
    exists d, dates !! i = Some d /\ resolve x = inr d.
Proof.
  revert dates. induction l as [|y l IH]; intros dates Hres i x Hi.
  - destruct i; discriminate Hi.
  - simpl in Hres. destruct (resolve y) as [e|dy] eqn:Hy; [discriminate|].
    destruct (resolve_all l) as [e|ds] eqn:Hl; [discriminate|].
    injection Hres as <-. destruct i as [|i]; simpl in Hi.
    + injection Hi as <-. exists dy. split; [reflexivity | exact Hy].
    + exact (IH ds eq_refl i x Hi).
Qed.

(** A call of [calculate_forward_vol] from the builder: two datetimes and no
    trade date, so the clock is read once. *)
Lemma forward_vol_now (vol1 vol2 : float) (d1 d2 : datetime) (c : clock) :
  calculate_forward_vol vol1 (Dt d1) vol2 (Dt d2) None c =
  if sub_days d2 (c 0%nat) <=? sub_days d1 (c 0%nat)
  then inl (ValueError order_msg)
  else inr (np_sqrt (forward_var_of vol1 (sub_days d1 (c 0%nat))
                                    vol2 (sub_days d2 (c 0%nat))),
            fun n => c (S n)).
Proof.
  rewrite forward_vol_run, forward_variance_run. simpl resolve.
  rewrite trade_datetime_now.
  destruct (_ <=? _); reflexivity.
Qed.

(** An iteration that ends has written one cell, for an earlier and a later
    expiry. *)
Lemma fill_cell_ok vols dates i j matrix c matrix' c' :
  fill_cell vols dates i j matrix c = inr (matrix', c') ->
  (exists v, matrix' = setitem2 matrix i j v) /\
  exists di dj, dates !! i = Some di /\ dates !! j = Some dj /\
                instant di < instant dj.
Proof.
  unfold fill_cell, getitem, bind, ret, raise.
  destruct (vols !! i) as [vi|]; [|discriminate].
  destruct (dates !! i) as [di|]; [|discriminate].
  destruct (vols !! j) as [vj|]; [|discriminate].
  destruct (dates !! j) as [dj|]; [|discriminate].
  rewrite forward_vol_now.
  destruct (Z.leb_spec (sub_days dj (c 0%nat)) (sub_days di (c 0%nat)))
    as [Hle|Hlt]; [discriminate|].
  intros [= <- _]. split; [eexists; reflexivity|].
  exists di, dj. repeat split.
  apply (sub_days_lt_instant di dj (c 0%nat) Hlt).
Qed.

(** Inside the lists an iteration can only raise the ordering error. *)
Lemma fill_cell_raises vols dates i j matrix c e :
  (i < length vols)%nat -> (j < length vols)%nat ->
  (i < length dates)%nat -> (j < length dates)%nat ->
  fill_cell vols dates i j matrix c = inl e ->
  e = ValueError order_msg.
Proof.
  intros Hvi Hvj Hdi Hdj.
  unfold fill_cell, getitem, bind, ret, raise.
  destruct (lookup_lt_is_Some_2 vols i Hvi) as [vi ->].
  destruct (lookup_lt_is_Some_2 dates i Hdi) as [di ->].
  destruct (lookup_lt_is_Some_2 vols j Hvj) as [vj ->].
  destruct (lookup_lt_is_Some_2 dates j Hdj) as [dj ->].
  rewrite forward_vol_now.
  destruct (_ <=? _); [|discriminate].
  intros [= <-]. reflexivity.
Qed.

Lemma cell_zeros (n m i j : nat) :
  (i < n)%nat -> (j < m)%nat -> cell (zeros n m) i j = Some 0%float.
Proof.
  intros Hi Hj. unfold cell, zeros.
  rewrite (lookup_replicate_2 n (replicate m 0%float) i Hi).
  apply lookup_replicate_2. exact Hj.
Qed.

(** Writing a cell leaves the others as they are. *)
Lemma cell_setitem2_other matrix i j v i' j' :
  i' <> i \/ j' <> j ->
  cell (setitem2 matrix i j v) i' j' = cell matrix i' j'.
Proof.
  intros Hne. unfold cell, setitem2.
  destruct (decide (i = i')) as [<-|Hi].
  - rewrite list_lookup_alter_eq.
    destruct (matrix !! i) as [row|]; [|reflexivity]. simpl.
    apply list_lookup_insert_ne. destruct Hne; congruence.
  - rewrite list_lookup_alter_ne by exact Hi. reflexivity.
Qed.

(** The fill loops only write above the diagonal. *)
Lemma fill_matrix_lower vols dates n matrix c matrix' c' i j :
  (j <= i)%nat ->
  fill_matrix vols dates n matrix c = inr (matrix', c') ->
  cell matrix' i j = cell matrix i j.
Proof.
  intros Hji Hrun. unfold fill_matrix in Hrun.
  refine (for_each_inv (fun m => cell m i j = cell matrix i j) _ _ _
            matrix c matrix' c' eq_refl Hrun).
  intros i0 m0 c0 m1 c1 Hi0 Hm0 Hrow. rewrite <- Hm0.
  refine (for_each_inv (fun m => cell m i j = cell m0 i j) _ _ _
            m0 c0 m1 c1 eq_refl Hrow).
  intros j0 m2 c2 m3 c3 Hj0 Hm2 Hcell. rewrite <- Hm2.
  apply elem_of_range in Hj0.
  destruct (fill_cell_ok _ _ _ _ _ _ _ _ Hcell) as [[v ->] _].
  apply cell_setitem2_other. lia.
Qed.

(** A builder that returns has found every earlier expiry strictly before
    every later one. *)
Lemma fill_matrix_ordered vols dates n matrix c matrix' c' :
  n = length dates ->
  fill_matrix vols dates n matrix c = inr (matrix', c') ->
  forall i j di dj, (i < j)%nat ->
    dates !! i = Some di -> dates !! j = Some dj -> instant di < instant dj.
Proof.
  intros Hn Hrun i j di dj Hij Hi Hj. unfold fill_matrix in Hrun.
  assert (Hjn : (j < n)%nat) by (rewrite Hn; eapply lookup_lt_Some; exact Hj).
  destruct (for_each_ok_all _ _ _ _ _ _ Hrun i) as (m0 & c0 & m1 & c1 & Hrow).
  { apply elem_of_range. lia. }
  destruct (for_each_ok_all _ _ _ _ _ _ Hrow j) as (m2 & c2 & m3 & c3 & Hcell).
  { apply elem_of_range. lia. }
  destruct (fill_cell_ok _ _ _ _ _ _ _ _ Hcell)
    as (_ & di' & dj' & Hi' & Hj' & Hlt).
  congruence.
Qed.

(** With a volatility for every expiry the fill loops can only raise the
    ordering error. *)
Lemma fill_matrix_raises vols dates n matrix c e :
  n = length dates -> (n <= length vols)%nat ->
  fill_matrix vols dates n matrix c = inl e ->
  e = ValueError order_msg.
Proof.
  intros Hn Hvols Hrun. unfold fill_matrix in Hrun.
  destruct (for_each_raises _ _ _ _ _ Hrun) as (i & m0 & c0 & Hi & Hrow).
  destruct (for_each_raises _ _ _ _ _ Hrow) as (j & m1 & c1 & Hj & Hcell).
  apply elem_of_range in Hi. apply elem_of_range in Hj.
  apply (fill_cell_raises vols dates i j m1 c1 e); [lia..|exact Hcell].
Qed.

(** On expiries that share their time of day (strings are all midnight), are
    on strictly ascending days and have a volatility each, the fill loops
    end. *)
Lemma fill_matrix_returns vols dates n :
  n = length dates -> (n <= length vols)%nat ->
  (forall i j di dj, (i < j)%nat ->
     dates !! i = Some di -> dates !! j = Some dj ->
     time_of_day di = time_of_day dj /\ toordinal di < toordinal dj) ->
  forall matrix c, exists matrix' c',
    fill_matrix vols dates n matrix c = inr (matrix', c').
Proof.
  intros Hn Hvols Hasc. unfold fill_matrix.
  apply for_each_returns. intros i m0 c0 Hi.
  apply for_each_returns. intros j m1 c1 Hj.
  apply elem_of_range in Hi. apply elem_of_range in Hj.
  destruct (lookup_lt_is_Some_2 vols i ltac:(lia)) as [vi Hvi].
  destruct (lookup_lt_is_Some_2 vols j ltac:(lia)) as [vj Hvj].
  destruct (lookup_lt_is_Some_2 dates i ltac:(lia)) as [di Hdi].
  destruct (lookup_lt_is_Some_2 dates j ltac:(lia)) as [dj Hdj].
  destruct (Hasc i j di dj ltac:(lia) Hdi Hdj) as [Htime Hord].
  unfold fill_cell, getitem, bind, ret. rewrite Hvi, Hdi, Hvj, Hdj.
  rewrite forward_vol_now.
  apply (sub_days_same_time di dj (c1 0%nat) Htime) in Hord.
  destruct (Z.leb_spec (sub_days dj (c1 0%nat)) (sub_days di (c1 0%nat)))
    as [Hle|_]; [lia|].
  eexists. eexists. reflexivity.
Qed.

(** C9.  In every matrix the builder returns, the diagonal and everything
    below it hold exactly 0.0, the value [numpy.zeros] put there: the loops
    write at [i < j] only. *)
Theorem matrix_lower_triangle_zero
    (expiries : list date_arg) (vols : list float) (c c' : clock)
    (df : DataFrame) :
  create_forward_vol_matrix expiries vols c = inr (df, c') ->
  forall i j : nat,
    (j <= i < length expiries)%nat -> cell (values df) i j = Some 0%float.
Proof.
  intros Hrun i j [Hji Hin]. rewrite builder_unfold in Hrun.
  destruct (collect_dates expiries c) as [e|[dates c1]]; [discriminate|].
  destruct (fill_matrix vols dates _ _ c1) as [e|[matrix c2]] eqn:Hfill;
    [discriminate|].
  injection Hrun as <- _. simpl.
  rewrite (fill_matrix_lower _ _ _ _ _ _ _ i j Hji Hfill).
  apply cell_zeros; lia.
Qed.

Lemma matrix_lower_triangle_zero_witness :
  match create_forward_vol_matrix
          [Str "2024-03-21"; Str "2024-03-31"; Str "2024-04-30"; Str "2024-05-31"]
          [40; 42; 44; 46]%float example_clock with
  | inl _ => False
  | inr (df, _) => cell (values df) 2 1 = Some 0%float
  end.
Proof.
  destruct (create_forward_vol_matrix _ _ example_clock) as [e|[df c']] eqn:Hrun.
  - vm_compute in Hrun. discriminate Hrun.
  - apply (matrix_lower_triangle_zero _ _ _ _ _ Hrun 2%nat 1%nat).
    simpl. lia.
Defined.

(** A computed cell can hold the same 0.0: two quotes of 0% give a forward
    volatility of zero above the diagonal. *)
Example matrix_zero_above_diagonal :
  result_of (create_forward_vol_matrix [Str "2024-03-21"; Str "2024-03-31"]
               [0; 0]%float example_clock)
  = Some (mk_DataFrame [[0; 0]; [0; 0]]%float
            ["2024-03-21"; "2024-03-31"]%string
            ["2024-03-21"; "2024-03-31"]%string).
Proof. vm_compute. reflexivity. Qed.

(** The builder has no check for duplicates: two equal date strings reach
    the guard of [calculate_forward_variance], whose [ValueError] reports a
    date ordering and is no validation error. *)
Lemma matrix_duplicate_dates_error_kind :
  exists e : exn,
    raised (create_forward_vol_matrix [Str "2024-03-21"; Str "2024-03-21"]
              [40; 42]%float example_clock) = Some e /\
    e = ValueError order_msg /\
    kind_of e = Some OrderingError /\
    kind_of e <> Some ValidationError.
Proof.
  eexists. split; [vm_compute; reflexivity|].
  split; [reflexivity|]. split; [reflexivity|]. discriminate.
Qed.

(** C4, the claim as stated fails: two expiries on the same calendar date,
    the string 2024-03-21 and the datetime 2024-03-21 12:00, are accepted.
    Read at 06:30 on 2024-03-01 their day counts are 19 and 20, the guard
    passes, nothing is raised and a matrix with the label 2024-03-21 twice
    is returned. *)
Lemma matrix_same_date_returns :
  year (midnight 2024 3 21) = year (mk_datetime 2024 3 21 12 0 0 0) /\
  month (midnight 2024 3 21) = month (mk_datetime 2024 3 21 12 0 0 0) /\
  day (midnight 2024 3 21) = day (mk_datetime 2024 3 21 12 0 0 0) /\
  resolve_all [Str "2024-03-21"; Dt (mk_datetime 2024 3 21 12 0 0 0)]
    = inr [midnight 2024 3 21; mk_datetime 2024 3 21 12 0 0 0] /\
  raised (create_forward_vol_matrix
            [Str "2024-03-21"; Dt (mk_datetime 2024 3 21 12 0 0 0)]
            [40; 42]%float example_clock) = None /\
  result_of (create_forward_vol_matrix
               [Str "2024-03-21"; Dt (mk_datetime 2024 3 21 12 0 0 0)]
               [40; 42]%float example_clock)
  = Some (mk_DataFrame [[0; 0.69856996786291858]; [0; 0]]%float
            ["2024-03-21"; "2024-03-21"]%string
            ["2024-03-21"; "2024-03-21"]%string).
Proof.
  repeat (split; [reflexivity|]).
  split; vm_compute; reflexivity.
Qed.

(** A later expiry that is not strictly after an earlier one in time stops
    the builder at the ordering guard. *)
Lemma matrix_unordered_pair_raises
    (expiries : list date_arg) (vols : list float) (dates : list datetime)
    (c : clock) (i j : nat) (di dj : datetime) :
  resolve_all expiries = inr dates ->
  length vols = length expiries ->
  (i < j)%nat ->
  dates !! i = Some di ->
  dates !! j = Some dj ->
  instant dj <= instant di ->
  create_forward_vol_matrix expiries vols c = inl (ValueError order_msg).
Proof.
  intros Hres Hlen Hij Hi Hj Hle.
  pose proof (resolve_all_length _ _ Hres) as Hn.
  rewrite builder_unfold, collect_dates_run, Hres.
  destruct (fill_matrix vols dates _ _ c) as [e|[matrix c2]] eqn:Hfill.
  - assert (Hvols : (length expiries <= length vols)%nat) by lia.
    rewrite (fill_matrix_raises _ _ _ _ _ _ (eq_sym Hn) Hvols Hfill).
    reflexivity.
  - pose proof (fill_matrix_ordered _ _ _ _ _ _ _ (eq_sym Hn) Hfill
                  i j di dj Hij Hi Hj). lia.
Qed.

(** C4, amended.  For resolvable expiries with a volatility each, two of
    which are on the same calendar date (year, month and day) and either at
    the same time of day or both given as date strings (which resolve to
    midnight), the builder returns no matrix: it raises the [ValueError] of
    the ordering guard.  Two expiries on the same date at different times of
    day are left out: the guard can let them pass. *)
Theorem matrix_duplicate_dates_rejected
    (expiries : list date_arg) (vols : list float) (dates : list datetime)
    (c : clock) (i j : nat) (di dj : datetime) :
  resolve_all expiries = inr dates ->
  length vols = length expiries ->
  (i < j)%nat ->
  dates !! i = Some di ->
  dates !! j = Some dj ->
  year di = year dj ->
  month di = month dj ->
  day di = day dj ->
  (time_of_day di = time_of_day dj \/
   exists si sj : string,
     expiries !! i = Some (Str si) /\ expiries !! j = Some (Str sj)) ->
  create_forward_vol_matrix expiries vols c = inl (ValueError order_msg).
Proof.
  intros Hres Hlen Hij Hi Hj Hy Hm Hd Htime.
  apply (matrix_unordered_pair_raises expiries vols dates c i j di dj
           Hres Hlen Hij Hi Hj).
  assert (Hsame : time_of_day di = time_of_day dj).
  { destruct Htime as [Hsame | (si & sj & Hsi & Hsj)]; [exact Hsame|].
    destruct (resolve_all_lookup _ _ Hres i _ Hsi) as (di' & Hi' & Hri).
    destruct (resolve_all_lookup _ _ Hres j _ Hsj) as (dj' & Hj' & Hrj).
    rewrite Hi in Hi'. injection Hi' as <-.
    rewrite Hj in Hj'. injection Hj' as <-.
    simpl in Hri, Hrj.
    rewrite (strptime_midnight _ _ Hri), (strptime_midnight _ _ Hrj).
    reflexivity. }
  unfold instant, toordinal. rewrite Hy, Hm, Hd, Hsame. lia.
Qed.

Lemma matrix_duplicate_dates_rejected_witness :
  create_forward_vol_matrix [Str "2024-03-21"; Str "2024-03-31"; Str "2024-3-21"]
    [40; 42; 44]%float example_clock = inl (ValueError order_msg).
Proof.
  apply (matrix_duplicate_dates_rejected
           [Str "2024-03-21"; Str "2024-03-31"; Str "2024-3-21"]
           [40; 42; 44]%float
           [midnight 2024 3 21; midnight 2024 3 31; midnight 2024 3 21]
           example_clock 0%nat 2%nat (midnight 2024 3 21) (midnight 2024 3 21)).
  - reflexivity.
  - reflexivity.
  - lia.
  - reflexivity.
  - reflexivity.
  - reflexivity.
  - reflexivity.
  - reflexivity.
  - right. exists "2024-03-21"%string, "2024-3-21"%string.
    split; reflexivity.
Defined.

(** C6, the claim as stated fails: nothing is sorted.  The two inputs below
    are permutations of each other; the first raises, the second returns. *)
Lemma matrix_input_order_matters :
  Permutation (zip [Str "2024-03-31"; Str "2024-03-21"] [42; 40]%float)
              (zip [Str "2024-03-21"; Str "2024-03-31"] [40; 42]%float) /\
  raised (create_forward_vol_matrix [Str "2024-03-31"; Str "2024-03-21"]
            [42; 40]%float example_clock) = Some (ValueError order_msg) /\
  result_of (create_forward_vol_matrix [Str "2024-03-21"; Str "2024-03-31"]
               [40; 42]%float example_clock)
  = Some (mk_DataFrame [[0; 0.45558753275303732]; [0; 0]]%float
            ["2024-03-21"; "2024-03-31"]%string
            ["2024-03-21"; "2024-03-31"]%string).
Proof.
  split; [apply perm_swap|].
  split; vm_compute; reflexivity.
Qed.

(** C6, amended.  The builder keeps the order of its input and sorts
    nothing.  When it returns, both axes are labelled by the expiries as they
    were given, and these were already strictly ascending, each earlier one
    before each later one.  And it does return, with these labels, on
    resolvable expiries that share their time of day, are on strictly
    ascending days in the order given and have a volatility each. *)
Theorem matrix_keeps_input_order
    (expiries : list date_arg) (vols : list float) (c : clock) :
  (forall (df : DataFrame) (c' : clock),
     create_forward_vol_matrix expiries vols c = inr (df, c') ->
     exists dates : list datetime,
       resolve_all expiries = inr dates /\
       index df = map strftime dates /\
       columns df = map strftime dates /\
       forall (i j : nat) (di dj : datetime),
         (i < j)%nat -> dates !! i = Some di -> dates !! j = Some dj ->
         instant di < instant dj) /\
  (forall dates : list datetime,
     resolve_all expiries = inr dates ->
     length vols = length expiries ->
     (forall (i j : nat) (di dj : datetime),
        (i < j)%nat -> dates !! i = Some di -> dates !! j = Some dj ->
        time_of_day di = time_of_day dj /\ toordinal di < toordinal dj) ->
     exists (df : DataFrame) (c' : clock),
       create_forward_vol_matrix expiries vols c = inr (df, c') /\
       index df = map strftime dates /\
       columns df = map strftime dates).
Proof.
  split.
  - intros df c' Hrun. rewrite builder_unfold, collect_dates_run in Hrun.
    destruct (resolve_all expiries) as [e|dates] eqn:Hres; [discriminate|].
    destruct (fill_matrix vols dates _ _ c) as [e|[matrix c2]] eqn:Hfill;
      [discriminate|].
    injection Hrun as <- _.
    exists dates. repeat split.
    apply (fill_matrix_ordered _ _ _ _ _ _ _
             (eq_sym (resolve_all_length _ _ Hres)) Hfill).
  - intros dates Hres Hlen Hasc.
    pose proof (resolve_all_length _ _ Hres) as Hn.
    assert (Hvols : (length expiries <= length vols)%nat) by lia.
    rewrite builder_unfold, collect_dates_run, Hres.
    destruct (fill_matrix_returns vols dates (length expiries) (eq_sym Hn)
                Hvols Hasc (zeros (length expiries) (length expiries)) c)
      as (matrix & c' & ->).
    eexists. eexists. repeat split.
Qed.

Lemma matrix_keeps_input_order_witness :
  match create_forward_vol_matrix
          [Str "2024-03-21"; Str "2024-03-31"; Str "2024-04-30"; Str "2024-05-31"]
          [40; 42; 44; 46]%float example_clock with
  | inl _ => False
  | inr (df, _) =>
      index df = ["2024-03-21"; "2024-03-31"; "2024-04-30"; "2024-05-31"]%string
  end.
Proof.
  destruct (create_forward_vol_matrix _ _ example_clock) as [e|[df c']] eqn:Hrun.
  - vm_compute in Hrun. discriminate Hrun.
  - destruct (proj1 (matrix_keeps_input_order _ _ _) _ _ Hrun)
      as (dates & Hres & Hindex & _).
    vm_compute in Hres. injection Hres as <-. exact Hindex.
Defined.

(** ** The event decomposition *)

Section ExtractorFacts.

Variable round_float : float -> Z -> float.
Variable round_float64 : float -> Z -> float.

(** With three dates that parse, [extract_volatilities] returns: nothing
    else in it can raise, and no order of the dates is asked for. *)
Lemma extract_run
    (trade_date expiry_date event_date : string)
    (expiry_atf_vol expected_move_size : float) (calendar_model : string)
    (trade_dt expiry_dt event_dt : datetime) (c : clock) :
  strptime trade_date = inr trade_dt ->
  strptime expiry_date = inr expiry_dt ->
  strptime event_date = inr event_dt ->
  exists r : volatilities,
    extract_volatilities round_float round_float64 trade_date expiry_date
      event_date expiry_atf_vol expected_move_size calendar_model c
      = inr (r, c) /\
    total_days r = toordinal expiry_dt - toordinal trade_dt /\
    days_to_event r = toordinal event_dt - toordinal trade_dt /\
    days_after_event r = toordinal expiry_dt - toordinal event_dt.
Proof.
  intros Ht Hx He.
  unfold extract_volatilities, bind, lift, ret. rewrite Ht, Hx, He.
  eexists. split; [reflexivity|]. simpl.
  rewrite (sub_days_strptime _ _ _ _ Hx Ht), (sub_days_strptime _ _ _ _ He Ht),
    (sub_days_strptime _ _ _ _ Hx He).
  repeat split.
Qed.

End ExtractorFacts.

(** C8.  The record holds the three day counts as whole calendar days:
    [total_days] from the trade date to the expiry, [days_to_event] from the
    trade date to the event, [days_after_event] from the event to the expiry
    (so the first is the sum of the other two), for all dates that parse and
    both ways of rounding; for 2024-03-01, 2024-03-10 and 2024-03-21 they are
    20, 9 and 11. *)
Theorem extract_day_counts :
  (forall (round_float round_float64 : float -> Z -> float)
          (trade_date expiry_date event_date : string)
          (expiry_atf_vol expected_move_size : float) (calendar_model : string)
          (trade_dt expiry_dt event_dt : datetime) (c : clock),
     strptime trade_date = inr trade_dt ->
     strptime expiry_date = inr expiry_dt ->
     strptime event_date = inr event_dt ->
     exists r : volatilities,
       extract_volatilities round_float round_float64 trade_date expiry_date
         event_date expiry_atf_vol expected_move_size calendar_model c
         = inr (r, c) /\
       total_days r = toordinal expiry_dt - toordinal trade_dt /\
       days_to_event r = toordinal event_dt - toordinal trade_dt /\
       days_after_event r = toordinal expiry_dt - toordinal event_dt /\
       total_days r = days_to_event r + days_after_event r) /\
  (forall (round_float round_float64 : float -> Z -> float)
          (expiry_atf_vol expected_move_size : float) (calendar_model : string)
          (c : clock),
     exists r : volatilities,
       extract_volatilities round_float round_float64
         "2024-03-01" "2024-03-21" "2024-03-10"
         expiry_atf_vol expected_move_size calendar_model c = inr (r, c) /\
       total_days r = 20 /\ days_to_event r = 9 /\ days_after_event r = 11).
Proof.
  split.
  - intros rf rn t x e vol move cm tdt xdt edt c Ht Hx He.
    destruct (extract_run rf rn t x e vol move cm tdt xdt edt c Ht Hx He)
      as (r & Hrun & Htotal & Hto & Hafter).
    exists r. repeat split; try assumption. lia.
  - intros rf rn vol move cm c.
    destruct (extract_run rf rn "2024-03-01" "2024-03-21" "2024-03-10"
                vol move cm (midnight 2024 3 1) (midnight 2024 3 21)
                (midnight 2024 3 10) c eq_refl eq_refl eq_refl)
      as (r & Hrun & Htotal & Hto & Hafter).
    exists r. repeat split; assumption.
Qed.

Lemma extract_day_counts_witness :
  exists r : volatilities,
    extract_volatilities py_round np_round "2024-02-27" "2024-03-15"
      "2024-03-04" 40 5 "calendar" example_clock = inr (r, example_clock) /\
    total_days r = 17 /\ days_to_event r = 6 /\ days_after_event r = 11.
Proof.
  destruct (proj1 extract_day_counts py_round np_round
              "2024-02-27"%string "2024-03-15"%string "2024-03-04"%string
              40%float 5%float "calendar"%string (midnight 2024 2 27) (midnight 2024 3 15)
              (midnight 2024 3 4) example_clock eq_refl eq_refl eq_refl)
    as (r & Hrun & Htotal & Hto & Hafter & _).
  exists r. repeat split; assumption.
Defined.

(** The whole record of the scenario, with both roundings run. *)
Example extract_scenario :
  result_of (extract_volatilities py_round np_round "2024-03-01" "2024-03-21"
               "2024-03-10" 40 5 "calendar" example_clock)
  = Some (mk_volatilities 32 12.65 36 20 9 11).
Proof. vm_compute. reflexivity. Qed.




(** C10.  The record does not depend on [calendar_model]: two calls that
    differ in that argument only have the same outcome, and since the
    function reads no clock this also holds for calls made at different
    times: they return the same record or raise the same exception. *)
Theorem extract_ignores_calendar_model
    (round_float round_float64 : float -> Z -> float)
    (trade_date expiry_date event_date : string)
    (expiry_atf_vol expected_move_size : float)
    (calendar_model1 calendar_model2 : string) (c : clock) :
  extract_volatilities round_float round_float64 trade_date expiry_date
    event_date expiry_atf_vol expected_move_size calendar_model1 c
  = extract_volatilities round_float round_float64 trade_date expiry_date
      event_date expiry_atf_vol expected_move_size calendar_model2 c /\
  forall c' : clock,
    result_of (extract_volatilities round_float round_float64 trade_date
                 expiry_date event_date expiry_atf_vol expected_move_size
                 calendar_model1 c)
    = result_of (extract_volatilities round_float round_float64 trade_date
                   expiry_date event_date expiry_atf_vol expected_move_size
                   calendar_model2 c') /\
    raised (extract_volatilities round_float round_float64 trade_date
              expiry_date event_date expiry_atf_vol expected_move_size
              calendar_model1 c)
    = raised (extract_volatilities round_float round_float64 trade_date
                expiry_date event_date expiry_atf_vol expected_move_size
                calendar_model2 c').
Proof.
  split; [reflexivity|].
  intros c'. unfold extract_volatilities, bind, lift, ret.
  destruct (strptime trade_date) as [e|trade_dt]; [split; reflexivity|].
  destruct (strptime expiry_date) as [e|expiry_dt]; [split; reflexivity|].
  destruct (strptime event_date) as [e|event_dt]; split; reflexivity.
Qed.

(** * Further properties of the code *)

(** ** [calculate_forward_variance]: errors and the trade date *)

(** What [datetime.strptime] raises. *)
Lemma strptime_raises (s : string) (e : exn) :
  strptime s = inl e -> e = ValueError format_msg \/ e = ValueError range_msg.
Proof.
  unfold strptime. destruct (parse_ymd s) as [[[y m] d]|].
  - destruct (_ && _); [discriminate|]. intros [= <-]. right. reflexivity.
  - intros [= <-]. left. reflexivity.
Qed.

Lemma resolve_raises (d : date_arg) (e : exn) :
  resolve d = inl e -> e = ValueError format_msg \/ e = ValueError range_msg.
Proof. destruct d as [s|dt]; simpl; [apply strptime_raises | discriminate]. Qed.

Lemma trade_datetime_raises (trade_date : option date_arg) (c : clock) (e : exn) :
  trade_datetime trade_date c = inl e ->
  e = ValueError format_msg \/ e = ValueError range_msg.
Proof.
  unfold trade_datetime, or_now, as_datetime, bind, ret, lift, now.
  destruct trade_date as [d|]; [|discriminate].
  destruct (truthy d); [|discriminate].
  destruct (resolve d) as [e'|dt] eqn:Hr; [|discriminate].
  intros [= <-]. exact (resolve_raises d e' Hr).
Qed.

(** X1.  The guard: for every number type, with resolvable expiries and
    whatever trade date the call ends up with (given, or read from the
    clock), [t2 <= t1] raises the ordering [ValueError]; equal expiries and
    expiries in reverse order are both rejected. *)
Theorem forward_variance_rejects_unordered {F} `{PyNumber F}
    (vol1 vol2 : F) (date1 date2 : date_arg) (trade_date : option date_arg)
    (d1 d2 td : datetime) (c c' : clock) :
  resolve date1 = inr d1 ->
  resolve date2 = inr d2 ->
  trade_datetime trade_date c = inr (td, c') ->
  sub_days d2 td <= sub_days d1 td ->
  calculate_forward_variance vol1 date1 vol2 date2 trade_date c
    = inl (ValueError order_msg).
Proof.
  intros H1 H2 Htd Hle. rewrite forward_variance_run, H1, H2, Htd.
  destruct (Z.leb_spec (sub_days d2 td) (sub_days d1 td)) as [_|Hlt]; [|lia].
  reflexivity.
Qed.

Lemma forward_variance_rejects_unordered_witness :
  calculate_forward_variance 40%float (Str "2024-03-21") 42%float
    (Dt (midnight 2024 3 21)) None example_clock
    = inl (ValueError order_msg).
Proof.
  apply (forward_variance_rejects_unordered 40%float 42%float
           (Str "2024-03-21") (Dt (midnight 2024 3 21)) None
           (midnight 2024 3 21) (midnight 2024 3 21)
           (mk_datetime 2024 3 1 6 30 0 0) example_clock example_clock).
  - reflexivity.
  - reflexivity.
  - reflexivity.
  - vm_compute. discriminate.
Defined.

(** X2.  [calculate_forward_variance] never divides by zero: for every
    number type and all arguments, what it raises is a [ValueError], either
    one of [strptime] for a date that does not parse or the ordering error. *)
Theorem forward_variance_raises_value_errors {F} `{PyNumber F}
    (vol1 vol2 : F) (date1 date2 : date_arg) (trade_date : option date_arg)
    (c : clock) (e : exn) :
  calculate_forward_variance vol1 date1 vol2 date2 trade_date c = inl e ->
  e = ValueError format_msg \/ e = ValueError range_msg \/
  e = ValueError order_msg.
Proof.
  rewrite forward_variance_run.
  destruct (resolve date1) as [e1|d1] eqn:H1.
  { intros [= <-]. destruct (resolve_raises _ _ H1); auto. }
  destruct (resolve date2) as [e2|d2] eqn:H2.
  { intros [= <-]. destruct (resolve_raises _ _ H2); auto. }
  destruct (trade_datetime trade_date c) as [e3|[td c']] eqn:H3.
  { intros [= <-]. destruct (trade_datetime_raises _ _ _ H3); auto. }
  destruct (_ <=? _); [|discriminate].
  intros [= <-]. auto.
Qed.

Lemma forward_variance_raises_value_errors_witness :
  ValueError range_msg = ValueError format_msg \/
  ValueError range_msg = ValueError range_msg \/
  ValueError range_msg = ValueError order_msg.
Proof.
  apply (forward_variance_raises_value_errors 40%float 42%float
           (Str "2024-02-30") (Str "2024-03-31") None example_clock).
  vm_compute. reflexivity.
Defined.

(** X3.  The default trade date: leaving [trade_date] out, or passing the
    empty string, is the same as passing the datetime the clock shows; the
    clock is read once. *)
Theorem forward_variance_default_trade_date {F} `{PyNumber F}
    (vol1 vol2 : F) (date1 date2 : date_arg) (trade_date : option date_arg)
    (c : clock) :
  trade_date = None \/ trade_date = Some (Str EmptyString) ->
  calculate_forward_variance vol1 date1 vol2 date2 trade_date c =
  match calculate_forward_variance vol1 date1 vol2 date2
          (Some (Dt (c 0%nat))) c with
  | inl e => inl e
  | inr (fv, _) => inr (fv, fun n => c (S n))
  end.
Proof.
  intros Htd. rewrite !forward_variance_run.
  destruct (resolve date1) as [e1|d1]; [reflexivity|].
  destruct (resolve date2) as [e2|d2]; [reflexivity|].
  assert (Hnow : trade_datetime trade_date c = inr (c 0%nat, fun n => c (S n)))
    by (destruct Htd as [-> | ->]; reflexivity).
  rewrite Hnow.
  rewrite (trade_datetime_explicit (Dt (c 0%nat)) (c 0%nat) c eq_refl eq_refl).
  destruct (sub_days d2 (c 0%nat) <=? sub_days d1 (c 0%nat)); reflexivity.
Qed.

Lemma forward_variance_default_trade_date_witness :
  calculate_forward_variance 40%float (Str "2024-03-21") 42%float
    (Str "2024-03-31") (Some (Str EmptyString)) example_clock =
  match calculate_forward_variance 40%float (Str "2024-03-21") 42%float
          (Str "2024-03-31") (Some (Dt (example_clock 0%nat))) example_clock with
  | inl e => inl e
  | inr (fv, _) => inr (fv, fun n => example_clock (S n))
  end.
Proof.
  apply (forward_variance_default_trade_date 40%float 42%float
           (Str "2024-03-21") (Str "2024-03-31") (Some (Str EmptyString))
           example_clock).
  right. reflexivity.
Defined.

(** ** [calculate_forward_variance]: the value, in exact arithmetic *)

(** The value returned in exact arithmetic and the day counts. *)
Lemma forward_var_of_times (vol1 vol2 : Q) (t1 t2 : Z) :
  t1 < t2 ->
  (forward_var_of vol1 t1 vol2 t2 * inject_Z (t2 - t1)
   == (vol2 / 100) ^ 2 * inject_Z t2 - (vol1 / 100) ^ 2 * inject_Z t1)%Q.
Proof.
  intros Hlt. unfold forward_var_of, mul_int. cbn [div mul sub of_int Q_number].
  assert (Hnz : ~ (inject_Z (t2 - t1) == 0)%Q) by (apply inject_Z_nonzero; lia).
  change (inject_Z 100) with 100%Q.
  field. exact Hnz.
Qed.

(** X4.  A flat term structure: in exact arithmetic, with the same
    volatility at both expiries the forward variance is that volatility
    squared, whatever the two day counts. *)
Theorem forward_variance_flat
    (vol : Q) (date1 date2 trade_date : date_arg)
    (d1 d2 td : datetime) (c : clock) :
  resolve date1 = inr d1 ->
  resolve date2 = inr d2 ->
  truthy trade_date = true ->
  resolve trade_date = inr td ->
  sub_days d1 td < sub_days d2 td ->
  exists fv : Q,
    calculate_forward_variance vol date1 vol date2 (Some trade_date) c
      = inr (fv, c) /\
    (fv == (vol / 100) ^ 2)%Q.
Proof.
  intros H1 H2 Ht Htd Hlt.
  rewrite forward_variance_run, H1, H2, (trade_datetime_explicit _ _ _ Ht Htd).
  destruct (Z.leb_spec (sub_days d2 td) (sub_days d1 td)) as [Hle|_]; [lia|].
  eexists. split; [reflexivity|].
  unfold forward_var_of, mul_int. cbn [div mul sub of_int Q_number].
  set (t1 := sub_days d1 td) in *. set (t2 := sub_days d2 td) in *.
  assert (Hnz : ~ (inject_Z t2 - inject_Z t1 == 0)%Q).
  { intros Heq. apply (inject_Z_nonzero (t2 - t1)); [lia|].
    unfold Z.sub. rewrite inject_Z_plus, inject_Z_opp. exact Heq. }
  change (inject_Z 100) with 100%Q.
  unfold Z.sub. rewrite inject_Z_plus, inject_Z_opp.
  field. exact Hnz.
Qed.

Lemma forward_variance_flat_witness :
  exists fv : Q,
    calculate_forward_variance 40%Q (Str "2024-03-21") 40%Q (Str "2024-03-31")
      (Some (Str "2024-03-01")) example_clock = inr (fv, example_clock) /\
    (fv == (40 / 100) ^ 2)%Q.
Proof.
  exact (forward_variance_flat 40%Q
           (Str "2024-03-21") (Str "2024-03-31") (Str "2024-03-01")
           (midnight 2024 3 21) (midnight 2024 3 31) (midnight 2024 3 1)
           example_clock eq_refl eq_refl eq_refl eq_refl eq_refl).
Defined.

(** X5.  When the result is negative: in exact arithmetic the forward
    variance is below zero exactly when the total variance to the second
    expiry is below the total variance to the first. *)
Theorem forward_variance_negative_iff
    (vol1 vol2 : Q) (date1 date2 trade_date : date_arg)
    (d1 d2 td : datetime) (c : clock) :
  resolve date1 = inr d1 ->
  resolve date2 = inr d2 ->
  truthy trade_date = true ->
  resolve trade_date = inr td ->
  sub_days d1 td < sub_days d2 td ->
  exists fv : Q,
    calculate_forward_variance vol1 date1 vol2 date2 (Some trade_date) c
      = inr (fv, c) /\
    ((fv < 0)%Q <->
     ((vol2 / 100) ^ 2 * inject_Z (sub_days d2 td)
      < (vol1 / 100) ^ 2 * inject_Z (sub_days d1 td))%Q).
Proof.
  intros H1 H2 Ht Htd Hlt.
  rewrite forward_variance_run, H1, H2, (trade_datetime_explicit _ _ _ Ht Htd).
  destruct (Z.leb_spec (sub_days d2 td) (sub_days d1 td)) as [Hle|_]; [lia|].
  eexists. split; [reflexivity|].
  pose proof (forward_var_of_times vol1 vol2 _ _ Hlt) as Hprod.
  set (t1 := sub_days d1 td) in *. set (t2 := sub_days d2 td) in *.
  set (fv := forward_var_of vol1 t1 vol2 t2) in *.
  set (A := ((vol1 / 100) ^ 2 * inject_Z t1)%Q) in *.
  set (B := ((vol2 / 100) ^ 2 * inject_Z t2)%Q) in *.
  assert (Hpos : (0 < inject_Z (t2 - t1))%Q).
  { unfold Qlt. simpl. lia. }
  split; intros Hneg.
  - assert (Hlt0 : (fv * inject_Z (t2 - t1) < 0 * inject_Z (t2 - t1))%Q)
      by (apply Qmult_lt_r; assumption).
    rewrite Hprod, Qmult_0_l in Hlt0.
    apply (Qplus_lt_l _ _ A) in Hlt0. ring_simplify in Hlt0. exact Hlt0.
  - apply (Qmult_lt_r _ _ (inject_Z (t2 - t1)) Hpos).
    rewrite Hprod, Qmult_0_l.
    apply (Qplus_lt_l _ _ A). ring_simplify. exact Hneg.
Qed.

Lemma forward_variance_negative_iff_witness :
  exists fv : Q,
    calculate_forward_variance 40%Q (Str "2024-03-21") 20%Q (Str "2024-03-31")
      (Some (Str "2024-03-01")) example_clock = inr (fv, example_clock) /\
    ((fv < 0)%Q <->
     ((20 / 100) ^ 2 * inject_Z 30 < (40 / 100) ^ 2 * inject_Z 20)%Q).
Proof.
  exact (forward_variance_negative_iff 40%Q 20%Q
           (Str "2024-03-21") (Str "2024-03-31") (Str "2024-03-01")
           (midnight 2024 3 21) (midnight 2024 3 31) (midnight 2024 3 1)
           example_clock eq_refl eq_refl eq_refl eq_refl eq_refl).
Defined.

(** ** [calculate_forward_vol] *)

(** X6.  [calculate_forward_vol] raises exactly when
    [calculate_forward_variance] does on the same arguments, and the same
    exception; its own date conversions add no failure. *)
Theorem forward_vol_raises_as_variance
    (vol1 vol2 : float) (date1 date2 : date_arg)
    (trade_date : option date_arg) (c : clock) :
  raised (calculate_forward_vol vol1 date1 vol2 date2 trade_date c)
  = raised (calculate_forward_variance vol1 date1 vol2 date2 trade_date c).
Proof.
  rewrite forward_vol_run.
  destruct (calculate_forward_variance vol1 date1 vol2 date2 trade_date c)
    as [e|[fv c']]; reflexivity.
Qed.

(** The square root of the specification of floats is never below zero. *)
Lemma SFsqrt_not_negative (x : spec_float) :
  SFltb (SFsqrt prec emax x) (S754_zero false) = false.
Proof.
  destruct x as [s|s| |s m e]; try (destruct s; reflexivity); [reflexivity|].
  destruct s; [reflexivity|].
  unfold SFsqrt.
  destruct (SFsqrt_core_binary prec emax (Z.pos m) e) as [[mz ez] lz].
  unfold binary_round_aux.
  destruct (shr_fexp prec emax mz ez lz) as [mrs' e'].
  destruct (shr_fexp prec emax _ e' loc_Exact) as [mrs'' e''].
  destruct (shr_m mrs'') as [|p|p]; try reflexivity.
  destruct (e'' <=? emax - prec); reflexivity.
Qed.

Lemma np_sqrt_not_negative (x : float) : (np_sqrt x <? 0)%float = false.
Proof.
  unfold np_sqrt. rewrite ltb_spec, sqrt_spec.
  change (Prim2SF 0) with (S754_zero false).
  apply SFsqrt_not_negative.
Qed.

(** X7.  [calculate_forward_vol] never returns a negative number: whatever
    it returns is a square root, so it is zero, positive or NaN. *)
Theorem forward_vol_never_negative
    (vol1 vol2 : float) (date1 date2 : date_arg)
    (trade_date : option date_arg) (c c' : clock) (v : float) :
  calculate_forward_vol vol1 date1 vol2 date2 trade_date c = inr (v, c') ->
  (v <? 0)%float = false.
Proof.
  rewrite forward_vol_run.
  destruct (calculate_forward_variance vol1 date1 vol2 date2 trade_date c)
    as [e|[fv c1]]; [discriminate|].
  intros [= <- _]. apply np_sqrt_not_negative.
Qed.

Lemma forward_vol_never_negative_witness :
  (0.45738386504117068 <? 0)%float = false.
Proof.
  apply (forward_vol_never_negative 40%float 42%float
           (Str "2024-03-21") (Str "2024-03-31") (Some (Str "2024-03-01"))
           example_clock example_clock).
  vm_compute. reflexivity.
Defined.

(** ** [create_forward_vol_matrix]: shape and cells *)

Lemma later_refl (c : clock) : later c c.
Proof. exists 0%nat. intros n. reflexivity. Qed.

Lemma later_read (c c' : clock) : later c c' -> later c (fun n => c' (S n)).
Proof.
  intros [k Hk]. exists (S k). intros n. rewrite Hk. f_equal. lia.
Qed.

Lemma square_zeros (n : nat) : square n (zeros n n).
Proof.
  unfold square, zeros. split; [apply length_replicate|].
  intros row Hrow. apply elem_of_replicate in Hrow as [-> _].
  apply length_replicate.
Qed.

Lemma square_setitem2 n matrix i j v :
  square n matrix -> square n (setitem2 matrix i j v).
Proof.
  intros [Hlen Hrows]. unfold square, setitem2. split.
  - rewrite length_alter. exact Hlen.
  - intros row Hrow. apply list_elem_of_lookup in Hrow as [i' Hi'].
    destruct (decide (i = i')) as [<-|Hne].
    + rewrite list_lookup_alter_eq in Hi'.
      destruct (matrix !! i) as [row0|] eqn:Hrow0; [|discriminate].
      injection Hi' as <-. rewrite length_insert.
      apply Hrows. eapply list_elem_of_lookup_2. exact Hrow0.
    + rewrite list_lookup_alter_ne in Hi' by exact Hne.
      apply Hrows. eapply list_elem_of_lookup_2. exact Hi'.
Qed.

(** Writing a cell inside the matrix puts the value there. *)
Lemma cell_setitem2_same n matrix i j v :
  square n matrix -> (i < n)%nat -> (j < n)%nat ->
  cell (setitem2 matrix i j v) i j = Some v.
Proof.
  intros [Hlen Hrows] Hi Hj. unfold cell, setitem2.
  rewrite list_lookup_alter_eq.
  destruct (lookup_lt_is_Some_2 matrix i ltac:(lia)) as [row Hrow].
  rewrite Hrow. simpl. apply list_lookup_insert_eq.
  rewrite (Hrows row); [exact Hj|].
  eapply list_elem_of_lookup_2. exact Hrow.
Qed.

(** A loop invariant that sees which iterations are done, the state and the
    clock. *)
Lemma for_each_done_inv {A S} (I : list A -> S -> clock -> Prop)
    (l : list A) (body : A -> S -> M S) :
  (forall done x rest s c s' c',
     l = done ++ x :: rest -> I done s c -> body x s c = inr (s', c') ->
     I (done ++ [x]) s' c') ->
  forall s c s' c',
    I [] s c -> for_each l body s c = inr (s', c') -> I l s' c'.
Proof.
  intros Hstep.
  assert (Hgen : forall rest done s c s' c',
            l = done ++ rest -> I done s c ->
            for_each rest body s c = inr (s', c') -> I l s' c').
  { induction rest as [|x rest IH]; intros done s c s' c' Hl HI Hrun.
    - injection Hrun as <- <-. rewrite Hl, app_nil_r. exact HI.
    - rewrite for_each_cons in Hrun.
      destruct (body x s c) as [e|[s1 c1]] eqn:Hx; [discriminate|].
      apply (IH (done ++ [x]) s1 c1 s' c').
      + rewrite <- app_assoc. exact Hl.
      + exact (Hstep done x rest s c s1 c1 Hl HI Hx).
      + exact Hrun. }
  intros s c s' c' HI Hrun. exact (Hgen l [] s c s' c' eq_refl HI Hrun).
Qed.

(** A call of [calculate_forward_vol] on two datetimes with a datetime as
    trade date. *)
Lemma forward_vol_at (vol1 vol2 : float) (d1 d2 td : datetime) (c : clock) :
  calculate_forward_vol vol1 (Dt d1) vol2 (Dt d2) (Some (Dt td)) c =
  if sub_days d2 td <=? sub_days d1 td
  then inl (ValueError order_msg)
  else inr (np_sqrt (forward_var_of vol1 (sub_days d1 td) vol2 (sub_days d2 td)),
            c).
Proof.
  rewrite forward_vol_run, forward_variance_run. simpl resolve.
  rewrite (trade_datetime_explicit (Dt td) td c eq_refl eq_refl).
  destruct (sub_days d2 td <=? sub_days d1 td); reflexivity.
Qed.

(** One iteration that ends, in full. *)
Lemma fill_cell_inv vols dates i j matrix c matrix' c' :
  fill_cell vols dates i j matrix c = inr (matrix', c') ->
  exists vol_i date_i vol_j date_j,
    vols !! i = Some vol_i /\ dates !! i = Some date_i /\
    vols !! j = Some vol_j /\ dates !! j = Some date_j /\
    sub_days date_i (c 0%nat) < sub_days date_j (c 0%nat) /\
    matrix' = setitem2 matrix i j
                (np_sqrt (forward_var_of vol_i (sub_days date_i (c 0%nat))
                                         vol_j (sub_days date_j (c 0%nat)))) /\
    c' = (fun n => c (S n)).
Proof.
  unfold fill_cell, getitem, bind, ret, raise.
  destruct (vols !! i) as [vi|]; [|discriminate].
  destruct (dates !! i) as [di|]; [|discriminate].
  destruct (vols !! j) as [vj|]; [|discriminate].
  destruct (dates !! j) as [dj|]; [|discriminate].
  rewrite forward_vol_now.
  destruct (Z.leb_spec (sub_days dj (c 0%nat)) (sub_days di (c 0%nat)))
    as [Hle|Hlt]; [discriminate|].
  intros [= <- <-]. exists vi, di, vj, dj. repeat split. exact Hlt.
Qed.

Section Fill.

Variables (c : clock) (vols : list float) (dates : list datetime) (n : nat).

(** What holds after a written cell. *)
Lemma fill_cell_holds i j matrix c1 matrix' c2 :
  later c c1 -> square n matrix -> (i < n)%nat -> (j < n)%nat ->
  fill_cell vols dates i j matrix c1 = inr (matrix', c2) ->
  later c c2 /\ square n matrix' /\
  holds_forward_vol c vols dates matrix' i j /\
  forall i' j', i' <> i \/ j' <> j -> cell matrix' i' j' = cell matrix i' j'.
Proof.
  intros Hlater Hsq Hi Hj Hrun.
  destruct (fill_cell_inv _ _ _ _ _ _ _ _ Hrun)
    as (vi & di & vj & dj & Hvi & Hdi & Hvj & Hdj & Hlt & -> & ->).
  refine (conj (later_read _ _ Hlater) (conj (square_setitem2 _ _ _ _ _ Hsq)
            (conj _ _))).
  - destruct Hlater as [k Hk].
    exists k, vi, vj, di, dj. eexists.
    refine (conj Hvi (conj Hdi (conj Hvj (conj Hdj (conj _ _))))).
    { apply (cell_setitem2_same n); assumption. }
    rewrite forward_vol_at.
    specialize (Hk 0%nat). rewrite Nat.add_0_r in Hk. rewrite <- Hk.
    destruct (Z.leb_spec (sub_days dj (c1 0%nat)) (sub_days di (c1 0%nat)))
      as [Hle|_]; [lia|]. reflexivity.
  - intros i' j' Hne. apply cell_setitem2_other. exact Hne.
Qed.

(** [holds_forward_vol] looks at one cell only. *)
Lemma holds_forward_vol_same_cell matrix matrix' i j :
  cell matrix' i j = cell matrix i j ->
  holds_forward_vol c vols dates matrix i j ->
  holds_forward_vol c vols dates matrix' i j.
Proof.
  intros Hcell (k & vi & vj & di & dj & v & Hvi & Hdi & Hvj & Hdj & Hv & Hrun).
  exists k, vi, vj, di, dj, v. rewrite Hcell. repeat split; assumption.
Qed.

(** The inner loop, on row [i]. *)
Lemma fill_row_holds i matrix c1 matrix' c2 :
  later c c1 -> square n matrix -> (i < n)%nat ->
  for_each (range (i + 1) n) (fill_cell vols dates i) matrix c1
    = inr (matrix', c2) ->
  later c c2 /\ square n matrix' /\
  (forall j, (i < j < n)%nat -> holds_forward_vol c vols dates matrix' i j) /\
  forall i' j', i' <> i -> cell matrix' i' j' = cell matrix i' j'.
Proof.
  intros Hlater Hsq Hi Hrun.
  pose (I := fun (done : list nat) (m : list (list float)) (c' : clock) =>
    later c c' /\ square n m /\
    (forall j, j ∈ done -> holds_forward_vol c vols dates m i j) /\
    forall i' j', i' <> i -> cell m i' j' = cell matrix i' j').
  assert (Hend : I (range (i + 1) n) matrix' c2).
  { refine (for_each_done_inv I _ _ _ matrix c1 matrix' c2 _ Hrun).
    - intros done j rest m c' m' c'' Hl (Hl1 & Hs1 & Hdone & Hframe) Hcell.
      assert (Hj : (i + 1 <= j < n)%nat).
      { apply elem_of_range. rewrite Hl. apply elem_of_app. right. left. }
      destruct (fill_cell_holds i j m c' m' c'' Hl1 Hs1 Hi ltac:(lia) Hcell)
        as (Hl2 & Hs2 & Hnew & Hother).
      refine (conj Hl2 (conj Hs2 (conj _ _))).
      + intros j' Hj'. destruct (decide (j' = j)) as [->|Hne]; [exact Hnew|].
        apply elem_of_app in Hj' as [Hj'|Hj'].
        * apply (holds_forward_vol_same_cell m); [|apply Hdone; exact Hj'].
          apply Hother. right. exact Hne.
        * apply list_elem_of_singleton in Hj'. contradiction.
      + intros i' j' Hne. rewrite Hother by (left; exact Hne).
        apply Hframe. exact Hne.
    - refine (conj Hlater (conj Hsq (conj _ (fun _ _ _ => eq_refl)))).
      intros j Hj. inversion Hj. }
  destruct Hend as (Hl2 & Hs2 & Hdone & Hframe).
  refine (conj Hl2 (conj Hs2 (conj _ Hframe))).
  intros j Hj. apply Hdone. apply elem_of_range. lia.
Qed.

(** The two loops together. *)
Lemma fill_matrix_holds matrix c1 matrix' c2 :
  later c c1 -> square n matrix ->
  fill_matrix vols dates n matrix c1 = inr (matrix', c2) ->
  later c c2 /\ square n matrix' /\
  forall i j, (i < j < n)%nat -> holds_forward_vol c vols dates matrix' i j.
Proof.
  intros Hlater Hsq Hrun. unfold fill_matrix in Hrun.
  pose (I := fun (done : list nat) (m : list (list float)) (c' : clock) =>
    later c c' /\ square n m /\
    forall i j, i ∈ done -> (i < j < n)%nat ->
                holds_forward_vol c vols dates m i j).
  assert (Hend : I (range 0 n) matrix' c2).
  { refine (for_each_done_inv I _ _ _ matrix c1 matrix' c2 _ Hrun).
    - intros done i rest m c' m' c'' Hl (Hl1 & Hs1 & Hdone) Hrow.
      assert (Hi : (0 <= i < n)%nat).
      { apply elem_of_range. rewrite Hl. apply elem_of_app. right. left. }
      destruct (fill_row_holds i m c' m' c'' Hl1 Hs1 ltac:(lia) Hrow)
        as (Hl2 & Hs2 & Hnew & Hother).
      refine (conj Hl2 (conj Hs2 _)).
      intros i' j Hi' Hj.
      destruct (decide (i' = i)) as [->|Hne]; [apply Hnew; exact Hj|].
      apply elem_of_app in Hi' as [Hi'|Hi'].
      + apply (holds_forward_vol_same_cell m); [|apply Hdone; assumption].
        apply Hother. exact Hne.
      + apply list_elem_of_singleton in Hi'. contradiction.
    - refine (conj Hlater (conj Hsq _)).
      intros i j Hi. inversion Hi. }
  destruct Hend as (Hl2 & Hs2 & Hdone).
  refine (conj Hl2 (conj Hs2 _)).
  intros i j Hij. apply Hdone; [|exact Hij]. apply elem_of_range. lia.
Qed.

End Fill.

(** X8.  Shape: a matrix the builder returns is square, one row and one
    column per expiry, and both axes carry one label per expiry. *)
Theorem matrix_shape
    (expiries : list date_arg) (vols : list float) (c c' : clock)
    (df : DataFrame) :
  create_forward_vol_matrix expiries vols c = inr (df, c') ->
  square (length expiries) (values df) /\
  length (index df) = length expiries /\
  length (columns df) = length expiries.
Proof.
  intros Hrun. rewrite builder_unfold, collect_dates_run in Hrun.
  destruct (resolve_all expiries) as [e|dates] eqn:Hres; [discriminate|].
  destruct (fill_matrix vols dates _ _ c) as [e|[matrix c2]] eqn:Hfill;
    [discriminate|].
  injection Hrun as <- _. simpl.
  destruct (fill_matrix_holds c vols dates (length expiries) _ c matrix c2
              (later_refl c) (square_zeros _) Hfill) as (_ & Hsq & _).
  rewrite length_map, (resolve_all_length _ _ Hres).
  repeat split; try reflexivity; apply Hsq.
Qed.

Lemma matrix_shape_witness :
  match create_forward_vol_matrix
          [Str "2024-03-21"; Str "2024-03-31"; Str "2024-04-30"]
          [40; 42; 44]%float example_clock with
  | inl _ => False
  | inr (df, _) => square 3 (values df) /\ length (index df) = 3%nat /\
                   length (columns df) = 3%nat
  end.
Proof.
  destruct (create_forward_vol_matrix _ _ example_clock) as [e|[df c']] eqn:Hrun.
  - vm_compute in Hrun. discriminate Hrun.
  - exact (matrix_shape _ _ _ _ _ Hrun).
Defined.

(** X9.  Cells: in a matrix the builder returns, every cell above the
    diagonal, at [i < j], holds what [calculate_forward_vol] returns for the
    volatilities and dates at [i] and [j] with, as trade date, a datetime the
    clock showed during the call. *)
Theorem matrix_upper_cells
    (expiries : list date_arg) (vols : list float) (c c' : clock)
    (df : DataFrame) :
  create_forward_vol_matrix expiries vols c = inr (df, c') ->
  exists dates : list datetime,
    resolve_all expiries = inr dates /\
    forall i j : nat, (i < j < length expiries)%nat ->
      holds_forward_vol c vols dates (values df) i j.
Proof.
  intros Hrun. rewrite builder_unfold, collect_dates_run in Hrun.
  destruct (resolve_all expiries) as [e|dates] eqn:Hres; [discriminate|].
  destruct (fill_matrix vols dates _ _ c) as [e|[matrix c2]] eqn:Hfill;
    [discriminate|].
  injection Hrun as <- _. simpl.
  exists dates. split; [reflexivity|].
  apply (fill_matrix_holds c vols dates (length expiries) _ c matrix c2
           (later_refl c) (square_zeros _) Hfill).
Qed.

Lemma matrix_upper_cells_witness :
  match create_forward_vol_matrix
          [Str "2024-03-21"; Str "2024-03-31"; Str "2024-04-30"]
          [40; 42; 44]%float example_clock with
  | inl _ => False
  | inr (df, _) =>
      holds_forward_vol example_clock [40; 42; 44]%float
        [midnight 2024 3 21; midnight 2024 3 31; midnight 2024 4 30]
        (values df) 0 2
  end.
Proof.
  destruct (create_forward_vol_matrix _ _ example_clock) as [e|[df c']] eqn:Hrun.
  - vm_compute in Hrun. discriminate Hrun.
  - destruct (matrix_upper_cells _ _ _ _ _ Hrun) as (dates & Hres & Hcells).
    vm_compute in Hres. injection Hres as <-.
    apply Hcells. simpl. lia.
Defined.

(** ** [create_forward_vol_matrix]: edge cases and errors *)

(** X10.  Fewer than two expiries: no expiry gives the empty frame and one
    resolvable expiry gives one cell, 0.0, under the label of that expiry.
    No pair is visited, so the volatilities are not looked at (they may even
    be missing) and the clock is not read. *)
Theorem matrix_of_at_most_one_expiry (vols : list float) (c : clock) :
  create_forward_vol_matrix [] vols c = inr (mk_DataFrame [] [] [], c) /\
  forall (expiry : date_arg) (d : datetime),
    resolve expiry = inr d ->
    create_forward_vol_matrix [expiry] vols c
    = inr (mk_DataFrame [[0%float]] [strftime d] [strftime d], c).
Proof.
  split; [reflexivity|].
  intros expiry d Hd.
  rewrite builder_unfold, collect_dates_run. simpl resolve_all. rewrite Hd.
  reflexivity.
Qed.

Lemma matrix_of_at_most_one_expiry_witness :
  create_forward_vol_matrix [Str "2024-03-21"] [] example_clock
  = inr (mk_DataFrame [[0%float]] ["2024-03-21"%string] ["2024-03-21"%string],
         example_clock).
Proof.
  exact (proj2 (matrix_of_at_most_one_expiry [] example_clock)
           (Str "2024-03-21") (midnight 2024 3 21) eq_refl).
Defined.

Lemma resolve_all_raises (l : list date_arg) (e : exn) :
  resolve_all l = inl e -> e = ValueError format_msg \/ e = ValueError range_msg.
Proof.
  induction l as [|x l IH]; simpl; [discriminate|].
  destruct (resolve x) as [e'|d] eqn:Hx.
  - intros [= <-]. exact (resolve_raises x e' Hx).
  - destruct (resolve_all l) as [e'|ds]; [|discriminate].
    intros [= <-]. apply IH. reflexivity.
Qed.

(** X11.  Dates are parsed first: when one of the expiries does not parse,
    the builder raises the [ValueError] of [strptime] for the first such
    expiry, whatever the volatilities and the order of the other dates, and
    before the clock is read. *)
Theorem matrix_unparsable_expiry
    (expiries : list date_arg) (vols : list float) (c : clock) (e : exn) :
  resolve_all expiries = inl e ->
  create_forward_vol_matrix expiries vols c = inl e /\
  kind_of e = Some ParseError.
Proof.
  intros Hres. rewrite builder_unfold, collect_dates_run, Hres.
  split; [reflexivity|].
  destruct (resolve_all_raises _ _ Hres) as [-> | ->]; reflexivity.
Qed.

Lemma matrix_unparsable_expiry_witness :
  create_forward_vol_matrix
    [Str "2024-03-31"; Str "2024-03-21"; Str "21/03/2024"] [] example_clock
  = inl (ValueError format_msg) /\
  kind_of (ValueError format_msg) = Some ParseError.
Proof.
  apply (matrix_unparsable_expiry
           [Str "2024-03-31"; Str "2024-03-21"; Str "21/03/2024"] []
           example_clock (ValueError format_msg)).
  vm_compute. reflexivity.
Defined.

(** X12.  With a volatility for every expiry the builder never raises
    [IndexError]: whatever it raises is a [ValueError], of [strptime] or of
    the ordering guard. *)
Theorem matrix_raises_value_errors
    (expiries : list date_arg) (vols : list float) (c : clock) (e : exn) :
  (length expiries <= length vols)%nat ->
  create_forward_vol_matrix expiries vols c = inl e ->
  e = ValueError format_msg \/ e = ValueError range_msg \/
  e = ValueError order_msg.
Proof.
  intros Hlen. rewrite builder_unfold, collect_dates_run.
  destruct (resolve_all expiries) as [e'|dates] eqn:Hres.
  - intros [= <-]. destruct (resolve_all_raises _ _ Hres); auto.
  - destruct (fill_matrix vols dates _ _ c) as [e'|[matrix c2]] eqn:Hfill;
      [|discriminate].
    intros [= <-]. right. right.
    apply (fill_matrix_raises _ _ _ _ _ _
             (eq_sym (resolve_all_length _ _ Hres)) Hlen Hfill).
Qed.

Lemma matrix_raises_value_errors_witness :
  ValueError order_msg = ValueError format_msg \/
  ValueError order_msg = ValueError range_msg \/
  ValueError order_msg = ValueError order_msg.
Proof.
  apply (matrix_raises_value_errors [Str "2024-03-31"; Str "2024-03-21"]
           [42; 40]%float example_clock).
  - simpl. lia.
  - vm_compute. reflexivity.
Defined.

(** A loop raises at the first iteration that does, when those before end. *)
Lemma for_each_raises_at {A S} (l1 : list A) (x : A) (l2 : list A)
    (body : A -> S -> M S) (e : exn) :
  (forall y s c, y ∈ l1 -> exists s' c', body y s c = inr (s', c')) ->
  (forall s c, body x s c = inl e) ->
  forall s c, for_each (l1 ++ x :: l2) body s c = inl e.
Proof.
  intros Hok Hx. induction l1 as [|y l1 IH]; intros s c; simpl app.
  - rewrite for_each_cons, Hx. reflexivity.
  - rewrite for_each_cons.
    destruct (Hok y s c) as (s1 & c1 & ->); [left|].
    apply IH. intros z s2 c2 Hz. apply Hok. right. exact Hz.
Qed.

Lemma range_split (lo mid hi : nat) :
  (lo <= mid < hi)%nat ->
  range lo hi = range lo mid ++ mid :: range (mid + 1) hi.
Proof.
  intros Hm. unfold range.
  replace (hi - lo)%nat with ((mid - lo) + S (hi - (mid + 1)))%nat by lia.
  rewrite seq_app. simpl seq.
  replace (lo + (mid - lo))%nat with mid by lia.
  replace (S mid) with (mid + 1)%nat by lia.
  reflexivity.
Qed.

(** X13.  Too few volatilities: with at least two expiries, resolvable, on
    strictly ascending days at the same time of day, and fewer volatilities
    than expiries, the builder raises [IndexError] (at the first pair that
    asks for a missing volatility) and returns no matrix. *)
Theorem matrix_missing_volatility
    (expiries : list date_arg) (vols : list float) (dates : list datetime)
    (c : clock) :
  resolve_all expiries = inr dates ->
  (2 <= length expiries)%nat ->
  (length vols < length expiries)%nat ->
  (forall (i j : nat) (di dj : datetime),
     (i < j)%nat -> dates !! i = Some di -> dates !! j = Some dj ->
     time_of_day di = time_of_day dj /\ toordinal di < toordinal dj) ->
  create_forward_vol_matrix expiries vols c
    = inl (IndexError "list index out of range").
Proof.
  intros Hres Hn Hlen Hasc.
  pose proof (resolve_all_length _ _ Hres) as Hdates.
  rewrite builder_unfold, collect_dates_run, Hres.
  set (n := length expiries) in *.
  set (j0 := Nat.max 1 (length vols)).
  assert (Hj0 : (1 <= j0 < n)%nat) by (unfold j0; lia).
  unfold fill_matrix.
  rewrite (range_split 0 0 n) by lia.
  change (range 0 0) with (@nil nat). simpl app.
  rewrite for_each_cons.
  rewrite (range_split (0 + 1) j0 n) by lia.
  rewrite (for_each_raises_at (range (0 + 1) j0) j0 (range (j0 + 1) n)
             (fill_cell vols dates 0) (IndexError "list index out of range")).
  - reflexivity.
  - intros j m c1 Hj. apply elem_of_range in Hj.
    assert (Hjv : (j < length vols)%nat) by (unfold j0 in Hj; lia).
    destruct (lookup_lt_is_Some_2 vols 0 ltac:(lia)) as [v0 Hv0].
    destruct (lookup_lt_is_Some_2 vols j Hjv) as [vj Hvj].
    destruct (lookup_lt_is_Some_2 dates 0 ltac:(lia)) as [d0 Hd0].
    destruct (lookup_lt_is_Some_2 dates j ltac:(lia)) as [dj Hdj].
    destruct (Hasc 0%nat j d0 dj ltac:(lia) Hd0 Hdj) as [Htime Hord].
    unfold fill_cell, getitem, bind, ret. rewrite Hv0, Hd0, Hvj, Hdj.
    rewrite forward_vol_now.
    apply (sub_days_same_time d0 dj (c1 0%nat) Htime) in Hord.
    destruct (Z.leb_spec (sub_days dj (c1 0%nat)) (sub_days d0 (c1 0%nat)))
      as [Hle|_]; [lia|].
    eexists. eexists. reflexivity.
  - intros m c1. unfold fill_cell, getitem, bind, ret, raise.
    destruct (vols !! 0%nat) as [v0|] eqn:Hv0; [|reflexivity].
    destruct (lookup_lt_is_Some_2 dates 0 ltac:(lia)) as [d0 ->].
    assert (Hnone : vols !! j0 = None).
    { apply lookup_ge_None. apply lookup_lt_Some in Hv0. unfold j0. lia. }
    rewrite Hnone. reflexivity.
Qed.

Lemma matrix_missing_volatility_witness :
  create_forward_vol_matrix [Str "2024-03-21"; Str "2024-03-31"] [40]%float
    example_clock = inl (IndexError "list index out of range").
Proof.
  apply (matrix_missing_volatility [Str "2024-03-21"; Str "2024-03-31"]
           [40]%float [midnight 2024 3 21; midnight 2024 3 31] example_clock).
  - reflexivity.
  - simpl. lia.
  - simpl. lia.
  - intros [|[|[|i]]] [|[|[|j]]] di dj Hij Hi Hj;
      try lia; try discriminate Hi; try discriminate Hj.
    injection Hi as <-. injection Hj as <-. split; [reflexivity|].
    vm_compute. reflexivity.
Defined.

(** ** Labels and dates *)

Lemma digit_digit_char (k : Z) : digit (digit_char k) = Some (k mod 10).
Proof.
  unfold digit_char.
  assert (Hm : 0 <= k mod 10 < 10) by (apply Z.mod_pos_bound; lia).
  assert (Hcases : k mod 10 = 0 \/ k mod 10 = 1 \/ k mod 10 = 2 \/
                   k mod 10 = 3 \/ k mod 10 = 4 \/ k mod 10 = 5 \/
                   k mod 10 = 6 \/ k mod 10 = 7 \/ k mod 10 = 8 \/
                   k mod 10 = 9) by lia.
  repeat (destruct Hcases as [-> | Hcases]; [reflexivity|]).
  rewrite Hcases. reflexivity.
Qed.

Lemma parse_year_pad4 (y : Z) (rest : list ascii) :
  0 <= y <= 9999 ->
  parse_year (digit_char (y / 1000) :: digit_char (y / 100)
              :: digit_char (y / 10) :: digit_char y :: rest) = Some (y, rest).
Proof.
  intros Hy. unfold parse_year. rewrite !digit_digit_char.
  f_equal. f_equal. Z.div_mod_to_equations. lia.
Qed.

Lemma two_digits_pad2 (hi n : Z) :
  1 <= n <= hi -> n <= 99 ->
  two_digits hi (digit_char (n / 10)) (digit_char n) = Some n.
Proof.
  intros Hn Hhi. unfold two_digits. rewrite !digit_digit_char.
  replace (10 * ((n / 10) mod 10) + n mod 10) with n
    by (Z.div_mod_to_equations; lia).
  destruct (Z.leb_spec 1 n); [|lia].
  destruct (Z.leb_spec n hi); [|lia]. reflexivity.
Qed.

(** The label [strftime] gives a valid datetime from the year 1000 on is
    parsed by [strptime] to the midnight of the same day. *)
Lemma strptime_strftime (d : datetime) :
  valid d = true -> 1000 <= year d ->
  strptime (strftime d) = inr (midnight (year d) (month d) (day d)).
Proof.
  intros Hvalid Hyear. unfold valid in Hvalid.
  repeat (apply andb_true_iff in Hvalid as [Hvalid ?]).
  repeat match goal with
         | H : (_ <=? _) = true |- _ => apply Z.leb_le in H
         end.
  assert (Hdim : day d <= 31).
  { assert (Hb : _days_in_month (year d) (month d) <= 31); [|lia].
    unfold _days_in_month, _DAYS_IN_MONTH.
    assert (Hm : month d = 1 \/ month d = 2 \/ month d = 3 \/ month d = 4 \/
                 month d = 5 \/ month d = 6 \/ month d = 7 \/ month d = 8 \/
                 month d = 9 \/ month d = 10 \/ month d = 11 \/ month d = 12)
      by lia.
    repeat (destruct Hm as [-> | Hm];
            [destruct (_ && _); simpl; lia|]).
    rewrite Hm. destruct (_ && _); simpl; lia. }
  unfold strptime, parse_ymd, strftime, pad4, pad2.
  cbn [String.append list_ascii_of_string].
  rewrite parse_year_pad4 by lia.
  change (is_dash "-") with true. cbv iota.
  unfold parse_month, parse_day.
  rewrite (two_digits_pad2 12 (month d)) by lia.
  change (is_dash "-") with true. cbv iota.
  rewrite (two_digits_pad2 31 (day d)) by lia.
  destruct (Z.leb_spec 1 (year d)); [|lia].
  destruct (Z.leb_spec (day d) (_days_in_month (year d) (month d))); [|lia].
  reflexivity.
Qed.

Lemma strptime_strftime_witness :
  strptime (strftime (mk_datetime 2024 2 29 13 45 10 250))
  = inr (midnight 2024 2 29).
Proof.
  apply (strptime_strftime (mk_datetime 2024 2 29 13 45 10 250)).
  - reflexivity.
  - simpl. lia.
Defined.

Lemma resolve_all_labels (dates : list datetime) :
  Forall (fun d => valid d = true /\ 1000 <= year d /\ time_of_day d = 0) dates ->
  Forall (fun d => d = midnight (year d) (month d) (day d)) dates ->
  resolve_all (map Str (map strftime dates)) = inr dates.
Proof.
  induction dates as [|d ds IH]; intros Hv Hm; [reflexivity|].
  inversion Hv as [|? ? (Hvd & Hyd & _) Hvs]; subst.
  inversion Hm as [|? ? Hmd Hms]; subst.
  simpl. rewrite (strptime_strftime d Hvd Hyd), (IH Hvs Hms), <- Hmd.
  reflexivity.
Qed.

(** X14.  The labels give the expiries back: when the expiries are date
    strings from the year 1000 on, the index of the returned matrix, read as
    a list of expiries, resolves to the same dates as the input did. *)
Theorem matrix_labels_resolve
    (expiries : list string) (vols : list float) (c c' : clock)
    (df : DataFrame) (dates : list datetime) :
  create_forward_vol_matrix (map Str expiries) vols c = inr (df, c') ->
  resolve_all (map Str expiries) = inr dates ->
  Forall (fun d => 1000 <= year d) dates ->
  resolve_all (map Str (index df)) = inr dates /\
  columns df = index df.
Proof.
  intros Hrun Hres Hyears.
  rewrite builder_unfold, collect_dates_run, Hres in Hrun.
  destruct (fill_matrix vols dates _ _ c) as [e|[matrix c2]]; [discriminate|].
  injection Hrun as <- _. simpl. split; [|reflexivity].
  assert (Hparsed : Forall (fun d => exists s, strptime s = inr d) dates).
  { apply Forall_lookup_2. intros i d Hd.
    assert (Hi : (i < length (map Str expiries))%nat).
    { rewrite <- (resolve_all_length _ _ Hres). eapply lookup_lt_Some, Hd. }
    destruct (lookup_lt_is_Some_2 _ _ Hi) as [x Hx].
    destruct (resolve_all_lookup _ _ Hres i x Hx) as (d' & Hd' & Hrx).
    rewrite Hd in Hd'. injection Hd' as <-.
    apply list_lookup_fmap_Some in Hx as (s & -> & _).
    exists s. exact Hrx. }
  apply resolve_all_labels.
  - apply Forall_lookup_2. intros i d Hd.
    destruct (Forall_lookup_1 _ _ _ _ Hparsed Hd) as [s Hs].
    pose proof (Forall_lookup_1 _ _ _ _ Hyears Hd) as Hy.
    split; [exact (strptime_valid s d Hs)|]. split; [exact Hy|].
    rewrite (strptime_midnight s d Hs). reflexivity.
  - apply Forall_lookup_2. intros i d Hd.
    destruct (Forall_lookup_1 _ _ _ _ Hparsed Hd) as [s Hs].
    exact (strptime_midnight s d Hs).
Qed.

Lemma matrix_labels_resolve_witness :
  match create_forward_vol_matrix (map Str ["2024-3-21"; "2024-03-31"]%string)
          [40; 42]%float example_clock with
  | inl _ => False
  | inr (df, _) =>
      resolve_all (map Str (index df))
        = inr [midnight 2024 3 21; midnight 2024 3 31] /\
      columns df = index df
  end.
Proof.
  destruct (create_forward_vol_matrix _ _ example_clock) as [e|[df c']] eqn:Hrun.
  - vm_compute in Hrun. discriminate Hrun.
  - apply (matrix_labels_resolve ["2024-3-21"; "2024-03-31"]%string
             [40; 42]%float example_clock c' df
             [midnight 2024 3 21; midnight 2024 3 31] Hrun eq_refl).
    repeat constructor; simpl; lia.
Defined.

(** ** [_calculate_days_between] and the calendar *)

Lemma days_before_year_step (y : Z) :
  _days_before_year (y + 1)
  = _days_before_year y + 365 + (if _is_leap y then 1 else 0).
Proof.
  unfold _days_before_year, _is_leap. cbv zeta.
  replace (y + 1 - 1) with y by ring.
  destruct (Z.eqb_spec (y mod 4) 0) as [H4|H4];
    destruct (Z.eqb_spec (y mod 100) 0) as [H100|H100];
    destruct (Z.eqb_spec (y mod 400) 0) as [H400|H400];
    simpl; Z.div_mod_to_equations; lia.
Qed.

Lemma days_before_year_mono (y1 y2 : Z) :
  y1 <= y2 -> _days_before_year y1 <= _days_before_year y2.
Proof.
  intros Hle. unfold _days_before_year. cbv zeta.
  Z.div_mod_to_equations. lia.
Qed.

Lemma month_cases (m : Z) :
  1 <= m <= 12 ->
  m = 1 \/ m = 2 \/ m = 3 \/ m = 4 \/ m = 5 \/ m = 6 \/
  m = 7 \/ m = 8 \/ m = 9 \/ m = 10 \/ m = 11 \/ m = 12.
Proof. lia. Qed.

(** A day of a month lies inside its year. *)
Lemma day_of_year_bounds (y m d : Z) :
  1 <= m <= 12 -> 1 <= d <= _days_in_month y m ->
  1 <= _days_before_month y m + d <= 365 + (if _is_leap y then 1 else 0).
Proof.
  intros Hm Hd. unfold _days_before_month, _days_in_month in *.
  destruct (month_cases m Hm) as
    [->|[->|[->|[->|[->|[->|[->|[->|[->|[->|[->| ->]]]]]]]]]]];
    simpl in *; destruct (_is_leap y); simpl in *; lia.
Qed.

(** Inside a year a later month starts after the earlier one has ended. *)
Lemma month_order (y m1 m2 : Z) :
  1 <= m1 -> m1 < m2 -> m2 <= 12 ->
  _days_before_month y m1 + _days_in_month y m1 <= _days_before_month y m2.
Proof.
  intros H1 Hlt H2. unfold _days_before_month, _days_in_month.
  destruct (month_cases m1 ltac:(lia)) as
    [->|[->|[->|[->|[->|[->|[->|[->|[->|[->|[->| ->]]]]]]]]]]];
    destruct (month_cases m2 ltac:(lia)) as
      [->|[->|[->|[->|[->|[->|[->|[->|[->|[->|[->| ->]]]]]]]]]]];
    try lia; simpl; destruct (_is_leap y); simpl; lia.
Qed.

Lemma valid_bounds (d : datetime) :
  valid d = true ->
  1 <= year d /\ 1 <= month d <= 12 /\
  1 <= day d <= _days_in_month (year d) (month d) /\
  0 <= time_of_day d < us_per_day.
Proof.
  unfold valid. intros Hvalid.
  repeat (apply andb_true_iff in Hvalid as [Hvalid ?]).
  repeat match goal with
         | H : (_ <=? _) = true |- _ => apply Z.leb_le in H
         end.
  unfold time_of_day, us_per_day. lia.
Qed.

(** The ordinal follows the calendar. *)
Lemma toordinal_before (a b : datetime) :
  valid a = true -> valid b = true ->
  date_before a b -> toordinal a < toordinal b.
Proof.
  intros Ha Hb Hbefore.
  destruct (valid_bounds a Ha) as (Hya & Hma & Hda & _).
  destruct (valid_bounds b Hb) as (Hyb & Hmb & Hdb & _).
  unfold toordinal, _ymd2ord.
  destruct Hbefore as [Hy | [Hy [Hm | [Hm Hd]]]].
  - pose proof (day_of_year_bounds _ _ _ Hma Hda) as Hina.
    pose proof (day_of_year_bounds _ _ _ Hmb Hdb) as Hinb.
    pose proof (days_before_year_step (year a)) as Hstep.
    pose proof (days_before_year_mono (year a + 1) (year b) ltac:(lia)) as Hmono.
    lia.
  - rewrite <- Hy in *.
    pose proof (month_order (year a) (month a) (month b)
                  ltac:(lia) Hm ltac:(lia)) as Hmo.
    lia.
  - rewrite <- Hy, <- Hm in *. lia.
Qed.

Lemma toordinal_before_iff (a b : datetime) :
  valid a = true -> valid b = true ->
  (toordinal a < toordinal b <-> date_before a b) /\
  (toordinal a = toordinal b <->
   year a = year b /\ month a = month b /\ day a = day b).
Proof.
  intros Ha Hb.
  assert (Hcases : date_before a b \/ date_before b a \/
                   (year a = year b /\ month a = month b /\ day a = day b))
    by (unfold date_before; lia).
  assert (Hsame : year a = year b /\ month a = month b /\ day a = day b ->
                  toordinal a = toordinal b).
  { intros (Hy & Hm & Hd). unfold toordinal. rewrite Hy, Hm, Hd. reflexivity. }
  pose proof (toordinal_before a b Ha Hb) as Hab.
  pose proof (toordinal_before b a Hb Ha) as Hba.
  split; split; intros H.
  - destruct Hcases as [Hc | [Hc | Hc]]; [exact Hc | |].
    + specialize (Hba Hc). lia.
    + specialize (Hsame Hc). lia.
  - exact (Hab H).
  - destruct Hcases as [Hc | [Hc | Hc]]; [| | exact Hc].
    + specialize (Hab Hc). lia.
    + specialize (Hba Hc). lia.
  - exact (Hsame H).
Qed.

(** X15.  The day count and the calendar: between two date strings the
    count is positive exactly when the second is a later day of the calendar
    (year, then month, then day), and zero exactly when both are the same
    day; leap years are counted. *)
Theorem days_between_calendar
    (date1 date2 : string) (d1 d2 : datetime) (c : clock) :
  strptime date1 = inr d1 ->
  strptime date2 = inr d2 ->
  exists n : Z,
    _calculate_days_between (Str date1) (Str date2) c = inr (n, c) /\
    (0 < n <-> date_before d1 d2) /\
    (n = 0 <-> year d1 = year d2 /\ month d1 = month d2 /\ day d1 = day d2).
Proof.
  intros H1 H2.
  unfold _calculate_days_between, as_datetime, bind, lift, ret. simpl resolve.
  rewrite H1, H2. eexists. split; [reflexivity|].
  rewrite (sub_days_strptime _ _ _ _ H2 H1).
  destruct (toordinal_before_iff d1 d2 (strptime_valid _ _ H1)
              (strptime_valid _ _ H2)) as [Hlt Heq].
  split.
  - rewrite <- Hlt. lia.
  - rewrite <- Heq. lia.
Qed.

Lemma days_between_calendar_witness :
  exists n : Z,
    _calculate_days_between (Str "2023-12-31") (Str "2024-03-01") example_clock
      = inr (n, example_clock) /\
    (0 < n <-> date_before (midnight 2023 12 31) (midnight 2024 3 1)) /\
    (n = 0 <-> 2023 = 2024 /\ 12 = 3 /\ 31 = 1).
Proof.
  exact (days_between_calendar "2023-12-31" "2024-03-01"
           (midnight 2023 12 31) (midnight 2024 3 1) example_clock
           eq_refl eq_refl).
Defined.

(** X16.  The time of day of the trade date counts: from a trade date with
    a time of day after midnight (as [datetime.now()] gives) to an expiry
    given as a date string, the day count is one less than the number of
    calendar days between the two; from a midnight it is that number. *)
Theorem days_between_from_time_of_day
    (trade_date : datetime) (expiry : string) (d : datetime) (c : clock) :
  valid trade_date = true ->
  strptime expiry = inr d ->
  _calculate_days_between (Dt trade_date) (Str expiry) c
  = inr (toordinal d - toordinal trade_date
         - (if time_of_day trade_date =? 0 then 0 else 1), c).
Proof.
  intros Hvalid Hd.
  destruct (valid_bounds _ Hvalid) as (_ & _ & _ & Htime).
  unfold _calculate_days_between, as_datetime, bind, lift, ret. simpl resolve.
  rewrite Hd. f_equal. f_equal.
  unfold sub_days. rewrite (strptime_midnight _ _ Hd).
  change (time_of_day (midnight (year d) (month d) (day d))) with 0.
  change (toordinal (midnight (year d) (month d) (day d))) with (toordinal d).
  unfold us_per_day in *.
  set (t := time_of_day trade_date) in *.
  set (od := toordinal d). set (ot := toordinal trade_date).
  destruct (Z.eqb_spec t 0) as [Hz|Hnz].
  - rewrite Hz. change ((0 - 0) / (86400 * 1000000)) with 0. lia.
  - assert (Hdiv : (0 - t) / (86400 * 1000000) = -1)
      by (Z.div_mod_to_equations; lia).
    rewrite Hdiv. lia.
Qed.

Lemma days_between_from_time_of_day_witness :
  _calculate_days_between (Dt (mk_datetime 2024 3 1 6 30 0 0))
    (Str "2024-03-21") example_clock = inr (20 - 1, example_clock).
Proof.
  exact (days_between_from_time_of_day (mk_datetime 2024 3 1 6 30 0 0)
           "2024-03-21" (midnight 2024 3 21) example_clock eq_refl eq_refl).
Defined.

(** Expiries given as strings resolve to parsed dates. *)
Lemma resolve_all_strings (expiries : list string) (dates : list datetime) :
  resolve_all (map Str expiries) = inr dates ->
  forall i d, dates !! i = Some d -> exists s, strptime s = inr d.
Proof.
  intros Hres i d Hd.
  assert (Hi : (i < length (map Str expiries))%nat).
  { rewrite <- (resolve_all_length _ _ Hres). eapply lookup_lt_Some, Hd. }
  destruct (lookup_lt_is_Some_2 _ _ Hi) as [x Hx].
  destruct (resolve_all_lookup _ _ Hres i x Hx) as (d' & Hd' & Hrx).
  rewrite Hd in Hd'. injection Hd' as <-.
  apply list_lookup_fmap_Some in Hx as (s & -> & _).
  exists s. exact Hrx.
Qed.

Lemma instant_midnight (y m d : Z) :
  instant (midnight y m d) = _ymd2ord y m d * us_per_day.
Proof. unfold instant, toordinal, time_of_day. simpl. ring. Qed.

(** X17.  What the builder accepts: for expiries given as date strings that
    parse, with a volatility each, the builder returns a matrix exactly when
    the dates are in strictly ascending calendar order as given; in every
    other order, and with any repeated day, it raises. *)
Theorem matrix_returns_iff_ascending
    (expiries : list string) (vols : list float) (dates : list datetime)
    (c : clock) :
  resolve_all (map Str expiries) = inr dates ->
  length vols = length expiries ->
  (exists (df : DataFrame) (c' : clock),
     create_forward_vol_matrix (map Str expiries) vols c = inr (df, c')) <->
  (forall (i j : nat) (di dj : datetime),
     (i < j)%nat -> dates !! i = Some di -> dates !! j = Some dj ->
     date_before di dj).
Proof.
  intros Hres Hlen.
  pose proof (resolve_all_length _ _ Hres) as Hn.
  rewrite length_map in Hn.
  pose proof (resolve_all_strings _ _ Hres) as Hparsed.
  rewrite builder_unfold, collect_dates_run, Hres, length_map.
  split.
  - intros (df & c' & Hrun) i j di dj Hij Hi Hj.
    destruct (fill_matrix vols dates _ _ c) as [e|[matrix c2]] eqn:Hfill;
      [discriminate|].
    pose proof (fill_matrix_ordered _ _ _ _ _ _ _ (eq_sym Hn) Hfill
                  i j di dj Hij Hi Hj) as Hlt.
    destruct (Hparsed i di Hi) as [si Hsi].
    destruct (Hparsed j dj Hj) as [sj Hsj].
    apply (toordinal_before_iff di dj (strptime_valid _ _ Hsi)
             (strptime_valid _ _ Hsj)).
    rewrite (strptime_midnight _ _ Hsi), (strptime_midnight _ _ Hsj) in Hlt.
    rewrite !instant_midnight in Hlt. unfold toordinal.
    pose proof us_per_day_pos. nia.
  - intros Hasc.
    assert (Hvols : (length expiries <= length vols)%nat) by lia.
    destruct (fill_matrix_returns vols dates (length expiries) (eq_sym Hn)
                Hvols) with (matrix := zeros (length expiries) (length expiries))
                            (c := c)
      as (matrix & c' & ->).
    + intros i j di dj Hij Hi Hj.
      destruct (Hparsed i di Hi) as [si Hsi].
      destruct (Hparsed j dj Hj) as [sj Hsj].
      split.
      * rewrite (strptime_midnight _ _ Hsi), (strptime_midnight _ _ Hsj).
        reflexivity.
      * apply (toordinal_before_iff di dj (strptime_valid _ _ Hsi)
                 (strptime_valid _ _ Hsj)).
        exact (Hasc i j di dj Hij Hi Hj).
    + eexists. eexists. reflexivity.
Qed.

Lemma matrix_returns_iff_ascending_witness :
  (exists (df : DataFrame) (c' : clock),
     create_forward_vol_matrix (map Str ["2024-03-31"; "2024-03-21"]%string)
       [42; 40]%float example_clock = inr (df, c')) <->
  (forall (i j : nat) (di dj : datetime),
     (i < j)%nat ->
     [midnight 2024 3 31; midnight 2024 3 21] !! i = Some di ->
     [midnight 2024 3 31; midnight 2024 3 21] !! j = Some dj ->
     date_before di dj).
Proof.
  exact (matrix_returns_iff_ascending ["2024-03-31"; "2024-03-21"]%string
           [42; 40]%float [midnight 2024 3 31; midnight 2024 3 21]
           example_clock eq_refl eq_refl).
Defined.

(** ** [extract_volatilities]: errors and the three volatilities *)

(** X18.  Called with its two percentages as floats, [extract_volatilities]
    raises exactly when [strptime] fails on one of its three dates, and then
    the [ValueError] of the first that fails, in the order trade date, expiry
    date, event date; no float value of a percentage (NaN, infinite or
    negative included) makes it raise. *)
Theorem extract_raises_first_parse_error
    (round_float round_float64 : float -> Z -> float)
    (trade_date expiry_date event_date : string)
    (expiry_atf_vol expected_move_size : float) (calendar_model : string)
    (c : clock) (e : exn) :
  extract_volatilities round_float round_float64 trade_date expiry_date
    event_date expiry_atf_vol expected_move_size calendar_model c = inl e <->
  strptime trade_date = inl e \/
  (exists trade_dt, strptime trade_date = inr trade_dt /\
     (strptime expiry_date = inl e \/
      exists expiry_dt, strptime expiry_date = inr expiry_dt /\
        strptime event_date = inl e)).
Proof.
  unfold extract_volatilities, bind, lift, ret.
  destruct (strptime trade_date) as [e1|trade_dt].
  { split.
    - intros [= <-]. left. reflexivity.
    - intros [[= <-] | (? & [=] & _)]. reflexivity. }
  destruct (strptime expiry_date) as [e2|expiry_dt].
  { split.
    - intros [= <-]. right. eexists. split; [reflexivity|]. left. reflexivity.
    - intros [[=] | (? & _ & [[= <-] | (? & [=] & _)])]. reflexivity. }
  destruct (strptime event_date) as [e3|event_dt].
  { split.
    - intros [= <-]. right. eexists. split; [reflexivity|]. right.
      eexists. split; reflexivity.
    - intros [[=] | (? & _ & [[=] | (? & _ & [= <-])])]. reflexivity. }
  split.
  - discriminate.
  - intros [[=] | (? & _ & [[=] | (? & _ & [=])])].
Qed.

(** X19.  The dates do not enter the volatilities: two calls with the same
    whole-period volatility return the same [pre_event_vol] and
    [post_event_vol] whatever their dates and expected moves, and with the
    same expected move also the same [event_vol]; the day counts are computed
    and returned but never used. *)
Theorem extract_vols_ignore_dates
    (round_float round_float64 : float -> Z -> float)
    (trade_date1 expiry_date1 event_date1 : string)
    (trade_date2 expiry_date2 event_date2 : string)
    (expiry_atf_vol move1 move2 : float)
    (calendar_model1 calendar_model2 : string)
    (c1 c1' c2 c2' : clock) (r1 r2 : volatilities) :
  extract_volatilities round_float round_float64 trade_date1 expiry_date1
    event_date1 expiry_atf_vol move1 calendar_model1 c1 = inr (r1, c1') ->
  extract_volatilities round_float round_float64 trade_date2 expiry_date2
    event_date2 expiry_atf_vol move2 calendar_model2 c2 = inr (r2, c2') ->
  pre_event_vol r1 = pre_event_vol r2 /\
  post_event_vol r1 = post_event_vol r2 /\
  (move1 = move2 -> event_vol r1 = event_vol r2).
Proof.
  unfold extract_volatilities, bind, lift, ret.
  destruct (strptime trade_date1); [discriminate|].
  destruct (strptime expiry_date1); [discriminate|].
  destruct (strptime event_date1); [discriminate|].
  destruct (strptime trade_date2); [discriminate|].
  destruct (strptime expiry_date2); [discriminate|].
  destruct (strptime event_date2); [discriminate|].
  intros [= <- _] [= <- _]. simpl.
  split; [reflexivity|]. split; [reflexivity|].
  intros ->. reflexivity.
Qed.

Lemma extract_vols_ignore_dates_witness :
  32%float = 32%float /\ 36%float = 36%float /\
  (5%float = 10%float -> 12.65%float = 17.89%float).
Proof.
  apply (extract_vols_ignore_dates py_round np_round
           "2024-03-01" "2024-03-21" "2024-03-10"
           "2025-01-01" "2025-06-30" "2025-02-14"
           40%float 5%float 10%float "a" "b"
           example_clock example_clock example_clock example_clock
           (mk_volatilities 32 12.65 36 20 9 11)
           (mk_volatilities 32 17.89 36 180 44 136)).
  - vm_compute. reflexivity.
  - vm_compute. reflexivity.
Defined.

(** A product with NaN is NaN. *)
Lemma mul_nan_r (x : float) : (x * nan)%float = nan.
Proof.
  apply Prim2SF_inj. rewrite mul_spec.
  change (Prim2SF nan) with S754_nan.
  destruct (Prim2SF x) as [s|s| |s m e]; reflexivity.
Qed.

Lemma mul_nan_l (x : float) : (nan * x)%float = nan.
Proof.
  apply Prim2SF_inj. rewrite mul_spec.
  change (Prim2SF nan) with S754_nan. reflexivity.
Qed.

(** X20.  A negative expected move raises nothing: when the doubled move,
    as a decimal, is below zero, its square root is NaN and [event_vol] is
    what [round] returns on NaN; the call still returns a record. *)
Theorem extract_negative_move
    (round_float round_float64 : float -> Z -> float)
    (trade_date expiry_date event_date : string)
    (expiry_atf_vol expected_move_size : float) (calendar_model : string)
    (trade_dt expiry_dt event_dt : datetime) (c : clock) :
  strptime trade_date = inr trade_dt ->
  strptime expiry_date = inr expiry_dt ->
  strptime event_date = inr event_dt ->
  (expected_move_size / 100 * 2 <? 0)%float = true ->
  exists r : volatilities,
    extract_volatilities round_float round_float64 trade_date expiry_date
      event_date expiry_atf_vol expected_move_size calendar_model c
      = inr (r, c) /\
    event_vol r = round_float64 nan 2.
Proof.
  intros Ht Hx He Hneg.
  unfold extract_volatilities, bind, lift, ret. rewrite Ht, Hx, He.
  eexists. split; [reflexivity|]. simpl.
  rewrite (np_sqrt_negative _ Hneg), mul_nan_r, mul_nan_l. reflexivity.
Qed.

Lemma extract_negative_move_witness :
  exists r : volatilities,
    extract_volatilities py_round np_round "2024-03-01" "2024-03-21"
      "2024-03-10" 40 (-5) "calendar" example_clock = inr (r, example_clock) /\
    event_vol r = np_round nan 2.
Proof.
  apply (extract_negative_move py_round np_round
           "2024-03-01" "2024-03-21" "2024-03-10" 40%float (-5)%float
           "calendar" (midnight 2024 3 1) (midnight 2024 3 21)
           (midnight 2024 3 10) example_clock eq_refl eq_refl eq_refl).
  vm_compute. reflexivity.
Defined.
